(** * AirDataAnalyzer: the [DataSet] class of [src/AirDataAnalyzer.py]

    A shallow embedding of the class [DataSet] (label registries, loading,
    statistics and the two table printers) and proofs of its properties.

    Python objects are mutable and exceptions do not roll state back, so the
    methods are written in a small monad over a world made of the object
    ([self]) and the text printed so far ([stdout]).  Concentrations are
    binary64 floats ([PrimFloat.float]); registries are insertion-ordered
    dictionaries. *)

From Stdlib Require Import List String Ascii ZArith Bool Lia PrimFloat.
From Stdlib Require Import DecimalString.
From Corelib Require Import Uint63Axioms FloatOps SpecFloat.
From Corelib Require Import FloatAxioms.
From Stdlib Require Uint63.
Import ListNotations.

Local Open Scope string_scope.
Local Open Scope list_scope.

(* ===================================================================== *)
(** * Python values, exceptions, strings *)
(* ===================================================================== *)

(** The Python objects a caller can hand to the header setter. *)
Inductive pyobj : Type :=
| PyNone
| PyBool (b : bool)
| PyInt (z : Z)
| PyFloat (f : float)
| PyStr (s : string).

(** The exceptions the class can raise: the two defined in the module and
    the builtin ones raised by the setter, by [toggle_active_label] and by
    the statements of [load_file]. *)
Inductive exn : Type :=
| EmptyDatasetError
| NoMatchingItems
| KeyError
| TypeError
| ValueError
| IndexError
| CsvError
| StopIteration
| OSError.

Definition exn_eqb (a b : exn) : bool :=
  match a, b with
  | EmptyDatasetError, EmptyDatasetError
  | NoMatchingItems, NoMatchingItems
  | KeyError, KeyError
  | TypeError, TypeError
  | ValueError, ValueError
  | IndexError, IndexError
  | CsvError, CsvError
  | StopIteration, StopIteration
  | OSError, OSError => true
  | _, _ => false
  end.

(** [len] of a [str]; one [ascii] stands for one character. *)
Definition py_len (s : string) : nat := String.length s.

Definition nl : string := String "010"%char EmptyString.

Fixpoint spaces (n : nat) : string :=
  match n with
  | O => EmptyString
  | S k => String " "%char (spaces k)
  end.

(** Format specs [{s:>w}] and [{s:<w}] (also [{s:w}] for a [str]): pad with
    blanks up to the width, never truncate. *)
Definition rjust (w : nat) (s : string) : string := spaces (w - py_len s) ++ s.
Definition ljust (w : nat) (s : string) : string := s ++ spaces (w - py_len s).

(** [str(n)] for a non-negative [int]. *)
Definition str_of_nat (n : nat) : string :=
  NilZero.string_of_uint (Nat.to_uint n).

(* ===================================================================== *)
(** * Insertion-ordered dictionaries with [str] keys *)
(* ===================================================================== *)

Module Dict.

Definition t (V : Type) : Type := list (string * V).

Definition empty {V} : t V := [].

(** [d.get(k)]: the value bound to [k], if any. *)
Fixpoint get {V} (d : t V) (k : string) : option V :=
  match d with
  | [] => None
  | (k', v) :: rest => if String.eqb k' k then Some v else get rest k
  end.

(** [k in d] *)
Definition contains {V} (d : t V) (k : string) : bool :=
  match get d k with Some _ => true | None => false end.

(** [d[k] = v]: an existing key keeps its position, a new one goes last. *)
Fixpoint set {V} (d : t V) (k : string) (v : V) : t V :=
  match d with
  | [] => [(k, v)]
  | (k', v') :: rest =>
      if String.eqb k' k then (k', v) :: rest else (k', v') :: set rest k v
  end.

Definition keys {V} (d : t V) : list string := map fst d.
Definition items {V} (d : t V) : list (string * V) := d.

(** [{k: v for (k, v) in kvs}] *)
Definition comprehension {V} (kvs : list (string * V)) : t V :=
  fold_left (fun d kv => set d (fst kv) (snd kv)) kvs empty.

(** Keys are unique in every dictionary Python can build. *)
Definition wf {V} (d : t V) : Prop := NoDup (keys d).

End Dict.

(* ===================================================================== *)
(** * Builtins on lists of floats *)
(* ===================================================================== *)

(** [float(n)] for a list length. *)
Definition float_of_len (n : nat) : float :=
  PrimFloat.of_uint63 (Uint63Axioms.of_Z (Z.of_nat n)).

(** [sum(l)]: left-to-right additions starting from [0].  (CPython 3.12 and
    later add a compensation term to float sums, which can change the last
    bits of the total of a long list; the statements below only speak of
    the total as [py_sum].) *)
Definition py_sum (l : list float) : float :=
  fold_left PrimFloat.add l 0%float.

(** [min(x :: xs)]: keep the current item, replace it when a later item is
    strictly smaller. *)
Definition py_min (x : float) (xs : list float) : float :=
  fold_left (fun m y => if PrimFloat.ltb y m then y else m) xs x.

(** [max(x :: xs)]: replace the current item when a later one is strictly
    greater. *)
Definition py_max (x : float) (xs : list float) : float :=
  fold_left (fun m y => if PrimFloat.ltb m y then y else m) xs x.

(* ===================================================================== *)
(** * The data model *)
(* ===================================================================== *)

(** [DataSet.Categories] *)
Inductive Categories : Type := ZIP_CODE | TIME_OF_DAY.

(** [DataSet.Stats] *)
Inductive Stats : Type := MIN | AVG | MAX.

Definition Categories_value (c : Categories) : nat :=
  match c with ZIP_CODE => 0 | TIME_OF_DAY => 1 end.

Definition Stats_value (s : Stats) : nat :=
  match s with MIN => 0 | AVG => 1 | MAX => 2 end.

(** One element of [self._data]: the tuple [(row[1], row[4], float(row[5]))]. *)
Definition record : Type := (string * string * float)%type.

Definition zip_of (r : record) : string := fst (fst r).
Definition time_of (r : record) : string := snd (fst r).
Definition conc_of (r : record) : float := snd r.

(** [item[category.value]] *)
Definition field (item : record) (c : Categories) : string :=
  match Categories_value c with
  | 0 => zip_of item
  | _ => time_of item
  end.

(** [statistics[stat.value]] on the triple returned by the statistics. *)
Definition stat_item (t : float * float * float) (s : Stats) : float :=
  match Stats_value s with
  | 0 => fst (fst t)
  | 1 => snd (fst t)
  | _ => snd t
  end.

(** The instance attributes.  [_data] is [None] until the first load;
    [_header] is absent until the setter has run once. *)
Record DataSet : Type := mkDataSet {
  _labels_zip : Dict.t bool;
  _labels_time : Dict.t bool;
  _data : option (list record);
  _header : option string
}.

(** [self._labels[category]] *)
Definition labels_of (ds : DataSet) (c : Categories) : Dict.t bool :=
  match c with
  | ZIP_CODE => _labels_zip ds
  | TIME_OF_DAY => _labels_time ds
  end.

(** [self._labels[category] = d] *)
Definition set_labels (ds : DataSet) (c : Categories) (d : Dict.t bool)
  : DataSet :=
  match c with
  | ZIP_CODE => mkDataSet d (_labels_time ds) (_data ds) (_header ds)
  | TIME_OF_DAY => mkDataSet (_labels_zip ds) d (_data ds) (_header ds)
  end.

Definition set_data (ds : DataSet) (d : option (list record)) : DataSet :=
  mkDataSet (_labels_zip ds) (_labels_time ds) d (_header ds).

Definition set_header_attr (ds : DataSet) (h : string) : DataSet :=
  mkDataSet (_labels_zip ds) (_labels_time ds) (_data ds) (Some h).

(** Both registries have unique keys. *)
Definition DataSet_wf (ds : DataSet) : Prop :=
  Dict.wf (_labels_zip ds) /\ Dict.wf (_labels_time ds).

(** The spec's state [Loaded]: [self._data] is a non-empty list. *)
Definition Loaded (ds : DataSet) (data : list record) : Prop :=
  _data ds = Some data /\ data <> [].

(* ===================================================================== *)
(** * The monad of method bodies *)
(* ===================================================================== *)

Record world : Type := mkWorld {
  self : DataSet;
  stdout : string
}.

Inductive outcome (A : Type) : Type :=
| Ret (a : A)
| Exc (e : exn).
Arguments Ret {A} a.
Arguments Exc {A} e.

Definition M (A : Type) : Type := world -> outcome A * world.

Definition ret {A} (a : A) : M A := fun w => (Ret a, w).

Definition bind {A B} (c : M A) (k : A -> M B) : M B :=
  fun w =>
    match c w with
    | (Ret a, w') => k a w'
    | (Exc e, w') => (Exc e, w')
    end.

Definition raise {A} (e : exn) : M A := fun w => (Exc e, w).

Definition get_self : M DataSet := fun w => (Ret (self w), w).

Definition put_self (ds : DataSet) : M unit :=
  fun w => (Ret tt, mkWorld ds (stdout w)).

(** [print(s, end="")] *)
Definition print (s : string) : M unit :=
  fun w => (Ret tt, mkWorld (self w) (stdout w ++ s)).

(** [try: body except e: handler] *)
Definition try_except {A} (body : M A) (e : exn) (handler : M A) : M A :=
  fun w =>
    match body w with
    | (Ret a, w') => (Ret a, w')
    | (Exc e', w') => if exn_eqb e' e then handler w' else (Exc e', w')
    end.

Declare Scope py_scope.
Delimit Scope py_scope with py.
Notation "x <- c ;; k" := (bind c (fun x => k))
  (at level 61, c at next level, right associativity) : py_scope.
Notation "c ;;; k" := (bind c (fun _ => k))
  (at level 61, right associativity) : py_scope.
Local Open Scope py_scope.

(** [for x in xs: body] *)
Fixpoint for_each {A} (xs : list A) (body : A -> M unit) : M unit :=
  match xs with
  | [] => ret tt
  | x :: rest => body x ;;; for_each rest body
  end.

(** Lift the result of a pure computation that may raise. *)
Definition lift {A} (o : outcome A) : M A := fun w => (o, w).

(* ===================================================================== *)
(** * The class [DataSet] *)
(* ===================================================================== *)

(** What [csv.reader] yields for one line of the file: the list of its
    fields, or a line the reader rejects ([csv.Error]). *)
Inductive csv_line : Type :=
| Line (fields : list string)
| BadLine.

Section DataSetClass.

(** The builtin [float(s)] on a [str]: [None] when it raises
    [ValueError]. *)
Variable float_of_str : string -> option float.

(** The builtin [format(x, ".2f")] on a [float]. *)
Variable format_2f : float -> string.

(** The header setter. *)
Definition header_setter (new_header : pyobj) : M pyobj :=
  match new_header with
  | PyStr s =>
      if Nat.ltb 30 (py_len s) then raise ValueError
      else
        self <- get_self ;;
        put_self (set_header_attr self s) ;;;
        ret PyNone
  | _ => raise TypeError
  end.

(** [DataSet(header)]: [__init__] on a fresh object. *)
Definition DataSet_init (header : pyobj) : outcome DataSet :=
  let fresh := mkDataSet Dict.empty Dict.empty None None in
  match header_setter header (mkWorld fresh "") with
  | (Ret _, w) => Ret (self w)
  | (Exc e, _) => Exc e
  end.

(** [not self._data] *)
Definition falsy (d : option (list record)) : bool :=
  match d with
  | None | Some [] => true
  | Some (_ :: _) => false
  end.

(** [if not self._data: raise EmptyDatasetError] *)
Definition check_not_empty : M unit :=
  self <- get_self ;;
  if falsy (_data self) then raise EmptyDatasetError else ret tt.

(** The items of [self._data] where the code iterates over it. *)
Definition iter_data : M (list record) :=
  self <- get_self ;;
  match _data self with
  | Some data => ret data
  | None => raise TypeError
  end.

Definition _initialize_labels : M pyobj :=
  check_not_empty ;;;
  for_each [ZIP_CODE; TIME_OF_DAY] (fun category =>
    data <- iter_data ;;
    self <- get_self ;;
    put_self (set_labels self category
                (Dict.comprehension
                   (map (fun i => (field i category, true)) data)))) ;;;
  ret PyNone.

(** [(row[1], row[4], float(row[5]))] *)
Definition parse_row (row : list string) : outcome record :=
  match nth_error row 1 with
  | None => Exc IndexError
  | Some zip =>
      match nth_error row 4 with
      | None => Exc IndexError
      | Some time =>
          match nth_error row 5 with
          | None => Exc IndexError
          | Some c =>
              match float_of_str c with
              | None => Exc ValueError
              | Some f => Ret (zip, time, f)
              end
          end
      end
  end.

(** [[(row[1], row[4], float(row[5])) for row in csvreader]]: the reader
    is consumed line by line and the first failure ends the loop. *)
Fixpoint read_rows (lines : list csv_line) : outcome (list record) :=
  match lines with
  | [] => Ret []
  | BadLine :: _ => Exc CsvError
  | Line row :: rest =>
      match parse_row row with
      | Exc e => Exc e
      | Ret r =>
          match read_rows rest with
          | Exc e => Exc e
          | Ret rs => Ret (r :: rs)
          end
      end
  end.

(** [load_file]; [file] is what opening [filename] and reading it with
    [csv.reader] gives: [None] when the file cannot be opened. *)
Definition load_file (file : option (list csv_line)) : M pyobj :=
  match file with
  | None => raise OSError
  | Some [] => raise StopIteration
  | Some (BadLine :: _) => raise CsvError
  | Some (Line _ :: rest) =>
      data <- lift (read_rows rest) ;;
      self <- get_self ;;
      put_self (set_data self (Some data)) ;;;
      let count := List.length data in
      _initialize_labels ;;;
      print (str_of_nat count ++ " lines loaded" ++ nl) ;;;
      ret PyNone
  end.

Definition get_labels (category : Categories) : M (list string) :=
  check_not_empty ;;;
  self <- get_self ;;
  ret (Dict.keys (labels_of self category)).

Definition get_active_labels (category : Categories) : M (list string) :=
  check_not_empty ;;;
  self <- get_self ;;
  ret (map fst (filter (fun kv => snd kv)
                  (Dict.items (labels_of self category)))).

Definition toggle_active_label (category : Categories) (descriptor : string)
  : M pyobj :=
  check_not_empty ;;;
  self <- get_self ;;
  match Dict.get (labels_of self category) descriptor with
  | None => raise KeyError
  | Some v =>
      put_self (set_labels self category
                  (Dict.set (labels_of self category) descriptor (negb v))) ;;;
      ret PyNone
  end.

Definition _cross_table_statistics (descriptor_one descriptor_two : string)
  : M (float * float * float) :=
  check_not_empty ;;;
  data <- iter_data ;;
  let concentration_list :=
    map conc_of
      (filter (fun item => String.eqb (zip_of item) descriptor_one &&
                           String.eqb (time_of item) descriptor_two) data) in
  match concentration_list with
  | [] => raise NoMatchingItems
  | x :: xs =>
      let average :=
        (py_sum concentration_list
         / float_of_len (List.length concentration_list))%float in
      ret (py_min x xs, average, py_max x xs)
  end.

Definition display_cross_table (stat : Stats) : M pyobj :=
  check_not_empty ;;;
  print nl ;;;
  print (ljust 7 "") ;;;
  times <- get_active_labels TIME_OF_DAY ;;
  for_each times (fun i => print (rjust 8 i)) ;;;
  print nl ;;;
  zips <- get_active_labels ZIP_CODE ;;
  for_each zips (fun j =>
    print (ljust 7 j) ;;;
    times <- get_active_labels TIME_OF_DAY ;;
    for_each times (fun k =>
      try_except
        (statistics <- _cross_table_statistics j k ;;
         print (rjust 8 (format_2f (stat_item statistics stat))))
        NoMatchingItems
        (print (rjust 8 "N/A"))) ;;;
    print nl) ;;;
  ret PyNone.

Definition _table_statistics (row_category : Categories) (label : string)
  : M (float * float * float) :=
  let alternate_category :=
    if Nat.eqb (Categories_value row_category) 0 then TIME_OF_DAY else ZIP_CODE in
  active_labels <- get_active_labels alternate_category ;;
  check_not_empty ;;;
  data <- iter_data ;;
  let concentration_list :=
    map conc_of
      (filter (fun item =>
                 String.eqb (field item row_category) label &&
                 existsb (String.eqb (field item alternate_category))
                         active_labels) data) in
  match concentration_list with
  | [] => raise NoMatchingItems
  | x :: xs =>
      let average :=
        (py_sum concentration_list
         / float_of_len (List.length concentration_list))%float in
      ret (py_min x xs, average, py_max x xs)
  end.

Definition display_field_table (rows : Categories) : M pyobj :=
  check_not_empty ;;;
  print nl ;;;
  print ("The following data are from sensors matching these criteria:"
         ++ nl) ;;;
  print nl ;;;
  let other_category :=
    if Nat.eqb (Categories_value rows) 0 then TIME_OF_DAY else ZIP_CODE in
  others <- get_active_labels other_category ;;
  for_each others (fun label => print ("- " ++ label ++ nl)) ;;;
  print (ljust 8 "" ++ ljust 8 "Minimum" ++ ljust 8 "Average"
         ++ ljust 8 "Maximum" ++ nl) ;;;
  items <- get_active_labels rows ;;
  for_each items (fun item =>
    print (ljust 7 item) ;;;
    try_except
      (statistics <- _table_statistics rows item ;;
       for_each [fst (fst statistics); snd (fst statistics); snd statistics]
         (fun statistic => print (rjust 8 (format_2f statistic))))
      NoMatchingItems
      (print (rjust 8 "N/A" ++ rjust 8 "N/A" ++ rjust 8 "N/A")) ;;;
    print nl) ;;;
  ret PyNone.

End DataSetClass.

(* ===================================================================== *)
(** * The command-line functions *)
(* ===================================================================== *)

(** What can be raised at the console: the exceptions of the class,
    [EOFError] of [input] when the input is exhausted, [AttributeError] of
    the header property on an object whose setter never ran. *)
Inductive cli_exn : Type :=
| Raised (e : exn)
| EOFError
| AttributeError.

Inductive io_outcome (A : Type) : Type :=
| IoRet (a : A)
| IoExc (e : cli_exn)
| OutOfFuel.
Arguments IoRet {A} a.
Arguments IoExc {A} e.
Arguments OutOfFuel {A}.

(** The world and the lines the user is still to type. *)
Record console : Type := mkConsole {
  cworld : world;
  stdin : list string
}.

Definition IO (A : Type) : Type := console -> io_outcome A * console.

Definition io_ret {A} (a : A) : IO A := fun s => (IoRet a, s).

Definition io_bind {A B} (c : IO A) (k : A -> IO B) : IO B :=
  fun s =>
    match c s with
    | (IoRet a, s') => k a s'
    | (IoExc e, s') => (IoExc e, s')
    | (OutOfFuel, s') => (OutOfFuel, s')
    end.

(** A method call made from the console. *)
Definition liftM {A} (c : M A) : IO A :=
  fun s =>
    match c (cworld s) with
    | (Ret a, w) => (IoRet a, mkConsole w (stdin s))
    | (Exc e, w) => (IoExc (Raised e), mkConsole w (stdin s))
    end.

(** [input(prompt)]: the prompt goes to the output, the next line is
    returned; [EOFError] when there is none. *)
Definition input (prompt : string) : IO string :=
  fun s =>
    let w := mkWorld (self (cworld s)) (stdout (cworld s) ++ prompt) in
    match stdin s with
    | [] => (IoExc EOFError, mkConsole w [])
    | line :: rest => (IoRet line, mkConsole w rest)
    end.

(** [try: body except e: handler] at the console. *)
Definition io_try {A} (body : IO A) (e : exn) (handler : IO A) : IO A :=
  fun s =>
    match body s with
    | (IoExc (Raised e'), s') =>
        if exn_eqb e' e then handler s' else (IoExc (Raised e'), s')
    | r => r
    end.

(** How an iteration of a [while True] loop ends. *)
Inductive ctl : Type := Continue | Break.

(** [while True: body], each iteration costing one unit of fuel. *)
Fixpoint while_true (fuel : nat) (body : IO ctl) (s : console) {struct fuel}
  : io_outcome unit * console :=
  match fuel with
  | O => (OutOfFuel, s)
  | S n =>
      match body s with
      | (IoRet Continue, s') => while_true n body s'
      | (IoRet Break, s') => (IoRet tt, s')
      | (IoExc e, s') => (IoExc e, s')
      | (OutOfFuel, s') => (OutOfFuel, s')
      end
  end.

Declare Scope io_scope.
Delimit Scope io_scope with io.
Notation "x <- c ;; k" := (io_bind c (fun x => k))
  (at level 61, c at next level, right associativity) : io_scope.
Notation "c ;;; k" := (io_bind c (fun _ => k))
  (at level 61, right associativity) : io_scope.

Definition menu_options : list (nat * string) :=
  [(1, "Print Average Particulate Concentration by Zip Code and Time");
   (2, "Print Minimum Particulate Concentration by Zip Code and Time");
   (3, "Print Maximum Particulate Concentration by Zip Code and Time");
   (4, "Print Min/Avg/Max by Zip Code");
   (5, "Print Min/Avg/Max by Time");
   (6, "Adjust Zip Code Filters");
   (7, "Adjust Time Filters");
   (8, "Load Data");
   (9, "Quit")].

Definition print_menu : M unit :=
  print ("Main Menu" ++ nl) ;;;
  for_each menu_options
    (fun kv => print (str_of_nat (fst kv) ++ ": " ++ snd kv ++ nl)).

(** [my_dataset.header] *)
Definition header_getter : IO string :=
  fun s =>
    match _header (self (cworld s)) with
    | Some h => (IoRet h, s)
    | None => (IoExc AttributeError, s)
    end.

(** [enumerate(l, start)] *)
Fixpoint enumerate {A} (start : nat) (l : list A) : list (nat * A) :=
  match l with
  | [] => []
  | x :: rest => (start, x) :: enumerate (S start) rest
  end.

(** [labels.get(i)] on the dictionary built from [enumerate]. *)
Fixpoint lookup_int (labels : list (nat * string)) (i : Z) : option string :=
  match labels with
  | [] => None
  | (n, label) :: rest =>
      if Z.eqb (Z.of_nat n) i then Some label else lookup_int rest i
  end.

Definition please_load : string := "Please load a dataset first." ++ nl.
Definition filter_prompt : string :=
  "Please select an item to toggle or enter a blank line when you are finished.".
Definition menu_prompt : string := "Please choose a number from the menu: ".
Definition header_prompt : string := "Please enter a header: ".
Definition header_too_long : string :=
  "Please enter a string of 30 characters or less." ++ nl.

Section CLI.

Variable float_of_str : string -> option float.
Variable format_2f : float -> string.

(** The builtin [int(s)] on a [str]: [None] when it raises [ValueError]. *)
Variable int_of_str : string -> option Z.

(** What the file named [filename] holds during the session. *)
Variable file : option (list csv_line).

Local Open Scope io_scope.

(** One line of the listing of [manage_filters]. *)
Definition filter_line (active : list string) (il : nat * string) : string :=
  (str_of_nat (fst il) ++ ": " ++ ljust 10 (snd il) ++ " "
   ++ (if existsb (String.eqb (snd il)) active then "ACTIVE" else "INACTIVE")
   ++ nl)%string.

(** What [manage_filters] does with the line typed. *)
Definition manage_filters_select (category : Categories)
    (labels : list (nat * string)) (selection : string) : IO ctl :=
  if String.eqb selection "" then io_ret Break
  else
    match int_of_str selection with
    | None =>
        liftM (print ("Please enter a number or a blank line." ++ nl)) ;;;
        io_ret Continue
    | Some int_selection =>
        match lookup_int labels int_selection with
        | Some label =>
            liftM (toggle_active_label category label) ;;;
            io_ret Continue
        | None =>
            liftM (print ("Please enter a number from the list." ++ nl)) ;;;
            io_ret Continue
        end
    end.

(** One turn of the loop of [manage_filters]. *)
Definition manage_filters_body (category : Categories)
    (labels : list (nat * string)) : IO ctl :=
  active <- liftM (get_active_labels category) ;;
  liftM (print ("The following labels are in the dataset:" ++ nl)) ;;;
  liftM (for_each labels (fun il => print (filter_line active il))) ;;;
  selection <- input filter_prompt ;;
  manage_filters_select category labels selection.

Definition manage_filters (fuel : nat) (category : Categories) : IO unit :=
  r <- io_try
         (l <- liftM (get_labels category) ;; io_ret (Some (enumerate 1 l)))
         EmptyDatasetError
         (liftM (print please_load) ;;; io_ret None) ;;
  match r with
  | None => io_ret tt
  | Some labels => while_true fuel (manage_filters_body category labels)
  end.

(** [try: call except EmptyDatasetError: print("Please load ...")] *)
Definition guarded (call : M pyobj) : IO unit :=
  io_try (liftM call ;;; io_ret tt) EmptyDatasetError
         (liftM (print please_load)).

(** The [if]/[elif] chain of [menu] once the choice is a number. *)
Definition menu_choice (fuel : nat) (user_choice : Z) : IO ctl :=
  if Z.eqb user_choice 9 then
    liftM (print ("Goodbye! Thank you for looking at the menu." ++ nl)) ;;;
    io_ret Break
  else if Z.eqb user_choice 1 then
    guarded (display_cross_table format_2f AVG) ;;; io_ret Continue
  else if Z.eqb user_choice 2 then
    guarded (display_cross_table format_2f MIN) ;;; io_ret Continue
  else if Z.eqb user_choice 3 then
    guarded (display_cross_table format_2f MAX) ;;; io_ret Continue
  else if Z.eqb user_choice 4 then
    guarded (display_field_table format_2f ZIP_CODE) ;;; io_ret Continue
  else if Z.eqb user_choice 5 then
    guarded (display_field_table format_2f TIME_OF_DAY) ;;; io_ret Continue
  else if Z.eqb user_choice 6 then
    manage_filters fuel ZIP_CODE ;;; io_ret Continue
  else if Z.eqb user_choice 7 then
    manage_filters fuel TIME_OF_DAY ;;; io_ret Continue
  else if Z.eqb user_choice 8 then
    liftM (load_file float_of_str file) ;;; io_ret Continue
  else
    liftM (print ("Sorry, your choice is not on the menu." ++ nl)) ;;;
    io_ret Continue.

(** One turn of the loop of [menu]. *)
Definition menu_body (fuel : nat) : IO ctl :=
  liftM (print nl) ;;;
  h <- header_getter ;;
  liftM (print (h ++ nl)) ;;;
  liftM print_menu ;;;
  line <- input menu_prompt ;;
  match int_of_str line with
  | None => liftM (print ("Please enter a number." ++ nl)) ;;; io_ret Continue
  | Some user_choice => menu_choice fuel user_choice
  end.

(** [while True:] of [menu], for at most [turns] turns. *)
Definition menu_loop (turns fuel : nat) : IO unit :=
  while_true turns (menu_body fuel).

Definition menu (fuel : nat) : IO unit := menu_loop fuel fuel.

(** The loop of [main] that asks for a header until [DataSet(header)]
    returns; it gives the object, the text printed and the lines left. *)
Fixpoint main_ask_header (lines : list string) (out : string)
  : io_outcome DataSet * string * list string :=
  match lines with
  | [] => (IoExc EOFError, (out ++ header_prompt)%string, [])
  | header :: rest =>
      match DataSet_init (PyStr header) with
      | Ret purple_air => (IoRet purple_air, (out ++ header_prompt)%string, rest)
      | Exc TypeError =>
          main_ask_header rest
            (out ++ header_prompt ++ "Please enter a string only." ++ nl)%string
      | Exc ValueError =>
          main_ask_header rest (out ++ header_prompt ++ header_too_long)%string
      | Exc e => (IoExc (Raised e), (out ++ header_prompt)%string, rest)
      end
  end.

(** [main()], from the lines typed to the outcome, the text printed and the
    lines left. *)
Definition main (fuel : nat) (lines : list string)
  : io_outcome unit * string * list string :=
  match lines with
  | [] => (IoExc EOFError, "Hello, please enter your name: ", [])
  | username :: rest =>
      let out := ("Hello, please enter your name: " ++ "Welcome, " ++ username
                  ++ ", to the Air Quality database." ++ nl)%string in
      match main_ask_header rest out with
      | (IoRet purple_air, out', rest') =>
          let r := menu fuel (mkConsole (mkWorld purple_air out') rest') in
          (fst r, stdout (cworld (snd r)), stdin (snd r))
      | (IoExc e, out', rest') => (IoExc e, out', rest')
      | (OutOfFuel, out', rest') => (OutOfFuel, out', rest')
      end
  end.

End CLI.

(* ===================================================================== *)
(** * Executable instances of the two builtins *)
(* ===================================================================== *)

(** The theorems below hold for every [float_of_str] and [format_2f].  To
    run the class on concrete files this module gives an instance of each:
    [float_of_decimal] reads plain decimal literals (sign, digits, one
    optional point) whose digits fit 53 bits, where one correctly rounded
    division gives the nearest float; [fmt_2f] rounds the exact binary value
    to two decimals, ties to even. *)
Module Builtins.

Definition digit_of (c : ascii) : option Z :=
  let n := nat_of_ascii c in
  if Nat.leb 48 n && Nat.leb n 57 then Some (Z.of_nat (n - 48)) else None.

(** Read a run of digits: the number read so far, how many digits were
    read, and what is left. *)
Fixpoint scan_digits (s : string) (acc : Z) (cnt : nat)
  : Z * nat * string :=
  match s with
  | EmptyString => (acc, cnt, s)
  | String c rest =>
      match digit_of c with
      | Some d => scan_digits rest (10 * acc + d)%Z (S cnt)
      | None => (acc, cnt, s)
      end
  end.

Definition float_of_Z (z : Z) : float :=
  PrimFloat.of_uint63 (Uint63Axioms.of_Z z).

Definition float_of_decimal (s : string) : option float :=
  let '(neg, body) :=
    match s with
    | String "-"%char r => (true, r)
    | String "+"%char r => (false, r)
    | _ => (false, s)
    end in
  let '(ip, n1, rest) := scan_digits body 0%Z 0 in
  let '(m, n2, rest') :=
    match rest with
    | String "."%char r => scan_digits r ip 0
    | _ => (ip, 0, rest)
    end in
  match rest' with
  | EmptyString =>
      if Nat.eqb (n1 + n2) 0 then None
      else if (m <? 2 ^ 53)%Z && Nat.leb n2 18 then
        let q := (float_of_Z m / float_of_Z (10 ^ Z.of_nat n2))%float in
        Some (if neg then (- q)%float else q)
      else None
  | _ => None
  end.

Definition str_of_Z (z : Z) : string := str_of_nat (Z.to_nat z).

(** [m * 2^e] rounded to an integer, ties to even. *)
Definition round_half_even (m e : Z) : Z :=
  match e with
  | Zneg p =>
      let d := (2 ^ Zpos p)%Z in
      let q := (m / d)%Z in
      let r := (m mod d)%Z in
      if (2 * r <? d)%Z then q
      else if (d <? 2 * r)%Z then (q + 1)%Z
      else if Z.even q then q else (q + 1)%Z
  | _ => (m * 2 ^ e)%Z
  end.

Definition fmt_2f (x : float) : string :=
  match Prim2SF x with
  | S754_nan => "nan"
  | S754_infinity s => if s then "-inf" else "inf"
  | S754_zero s => if s then "-0.00" else "0.00"
  | S754_finite s m e =>
      let n := round_half_even (Zpos m * 100) e in
      let cents := (n mod 100)%Z in
      (if s then "-" else "") ++ str_of_Z (n / 100) ++ "."
      ++ (if (cents <? 10)%Z then "0" else "") ++ str_of_Z cents
  end.

End Builtins.

(* ===================================================================== *)
(** * Running the class on the example of the specification *)
(* ===================================================================== *)

Module Sample.

Definition header_row : csv_line :=
  Line ["id"; "zip"; "lat"; "lon"; "time"; "pm"].

Definition row (zip time pm : string) : csv_line :=
  Line ["s"; zip; "0"; "0"; time; pm].

Definition file : list csv_line :=
  [header_row;
   row "10001" "Morning" "5.0";
   row "10001" "Morning" "7.0";
   row "10002" "Evening" "3.0"].

Definition data : list record :=
  [("10001", "Morning", 5%float);
   ("10001", "Morning", 7%float);
   ("10002", "Evening", 3%float)].

(** A new object, as [DataSet()] makes it. *)
Definition fresh : DataSet :=
  mkDataSet Dict.empty Dict.empty None (Some "").

Definition all_on (keys : list string) : Dict.t bool :=
  map (fun k => (k, true)) keys.

(** The object after loading [file]. *)
Definition loaded : DataSet :=
  mkDataSet (all_on ["10001"; "10002"]) (all_on ["Morning"; "Evening"])
            (Some data) (Some "").

(** [loaded] once the zip label "10002" has been toggled. *)
Definition zip_10002_off : DataSet :=
  mkDataSet [("10001", true); ("10002", false)]
            (all_on ["Morning"; "Evening"]) (Some data) (Some "").

Definition load := load_file Builtins.float_of_decimal.

End Sample.

(* ===================================================================== *)
(** * Vocabulary of the specification *)
(* ===================================================================== *)

(** The category a table statistic is gated by. *)
Definition opposite (c : Categories) : Categories :=
  match c with
  | ZIP_CODE => TIME_OF_DAY
  | TIME_OF_DAY => ZIP_CODE
  end.

(** Label [k] is registered and its flag is on. *)
Definition active (d : Dict.t bool) (k : string) : Prop :=
  Dict.get d k = Some true.

(** [Selects P data sel]: [sel] lists, in order and with repetitions, the
    concentrations of exactly the records of [data] that satisfy [P]. *)
Inductive Selects (P : record -> Prop) : list record -> list float -> Prop :=
| Selects_nil : Selects P [] []
| Selects_take r data sel :
    P r -> Selects P data sel -> Selects P (r :: data) (conc_of r :: sel)
| Selects_skip r data sel :
    ~ P r -> Selects P data sel -> Selects P (r :: data) sel.

(** Minimum, sum divided by count, maximum of a selection; no result on an
    empty one. *)
Definition stats_of (sel : list float) : outcome (float * float * float) :=
  match sel with
  | [] => Exc NoMatchingItems
  | x :: xs =>
      Ret (py_min x xs,
           (py_sum sel / float_of_len (List.length sel))%float,
           py_max x xs)
  end.

(** The exceptions by which a load reports a line it cannot use. *)
Definition parse_error (e : exn) : Prop :=
  e = CsvError \/ e = IndexError \/ e = ValueError.

(** A line that cannot be read, that has no field 5, or whose field 5 is
    not numeric. *)
Definition malformed (float_of_str : string -> option float) (l : csv_line)
  : Prop :=
  match l with
  | BadLine => True
  | Line row =>
      match nth_error row 5 with
      | None => True
      | Some c => float_of_str c = None
      end
  end.

Definition join (l : list string) : string := fold_right append "" l.

(** The text of a cross table whose cells are given by [cell]. *)
Definition render_cross_table (cell : string -> string -> string)
    (zips times : list string) : string :=
  (nl ++ ljust 7 "" ++ join (map (rjust 8) times) ++ nl
   ++ join (map (fun j => ljust 7 j ++ join (map (cell j) times) ++ nl)
              zips))%string.

(** In world [w] each operation other than the load raises
    [EmptyDatasetError] and leaves [w] as it is. *)
Definition every_query_fails (format_2f : float -> string) (w : world)
  : Prop :=
  (forall c, get_labels c w = (Exc EmptyDatasetError, w)) /\
  (forall c, get_active_labels c w = (Exc EmptyDatasetError, w)) /\
  (forall c l, toggle_active_label c l w = (Exc EmptyDatasetError, w)) /\
  (forall z t, _cross_table_statistics z t w = (Exc EmptyDatasetError, w)) /\
  (forall c l, _table_statistics c l w = (Exc EmptyDatasetError, w)) /\
  (forall s, display_cross_table format_2f s w
             = (Exc EmptyDatasetError, w)) /\
  (forall c, display_field_table format_2f c w
             = (Exc EmptyDatasetError, w)).

(** A header of 31 characters. *)
Definition header_31 : string := "Air Quality Report for New York".

(** The strings of a list, each kept at its first occurrence. *)
Fixpoint first_occurrences (l : list string) : list string :=
  match l with
  | [] => []
  | x :: rest =>
      x :: filter (fun y => negb (String.eqb y x)) (first_occurrences rest)
  end.

(** Line [l] can be read, has the fields 1, 4 and 5 and a numeric field 5:
    it gives the record [r]. *)
Definition well_formed (float_of_str : string -> option float)
    (l : csv_line) (r : record) : Prop :=
  exists row zip time c f,
    l = Line row /\
    nth_error row 1 = Some zip /\
    nth_error row 4 = Some time /\
    nth_error row 5 = Some c /\
    float_of_str c = Some f /\
    r = (zip, time, f).

(** The registries have unique keys and, when records are loaded, their
    keys are the values of the two fields in those records. *)
Definition Consistent (ds : DataSet) : Prop :=
  DataSet_wf ds /\
  forall data, Loaded ds data ->
    forall c k,
      In k (Dict.keys (labels_of ds c))
      <-> exists item, In item data /\ field item c = k.

(** The flag of [k] in [d] is on. *)
Definition is_on (d : Dict.t bool) (k : string) : bool :=
  match Dict.get d k with
  | Some true => true
  | _ => false
  end.

(** The text of a field table whose rows are given by [row]. *)
Definition render_field_table (row : string -> string)
    (others items : list string) : string :=
  (nl ++ "The following data are from sensors matching these criteria:" ++ nl
   ++ nl
   ++ join (map (fun label => "- " ++ label ++ nl) others)
   ++ "        Minimum Average Maximum " ++ nl
   ++ join (map (fun item => ljust 7 item ++ row item ++ nl) items))%string.

(** The object and the output after a load that read the records [data]. *)
Definition after_load (w : world) (data : list record) : world :=
  mkWorld
    (mkDataSet
       (Dict.comprehension (map (fun i => (field i ZIP_CODE, true)) data))
       (Dict.comprehension (map (fun i => (field i TIME_OF_DAY, true)) data))
       (Some data) (_header (self w)))
    (stdout w ++ (str_of_nat (List.length data) ++ " lines loaded"
                  ++ nl))%string.

(** The list [get_active_labels] returns on a loaded object. *)
Definition active_list (ds : DataSet) (c : Categories) : list string :=
  map fst (filter (fun kv => snd kv) (Dict.items (labels_of ds c))).

(** The concentrations the two statistics work on. *)
Definition cross_selection (data : list record) (z t : string) : list float :=
  map conc_of
    (filter (fun item => String.eqb (zip_of item) z &&
                         String.eqb (time_of item) t) data).

Definition table_selection (ds : DataSet) (data : list record)
    (c : Categories) (label : string) : list float :=
  map conc_of
    (filter (fun item =>
               String.eqb (field item c) label &&
               existsb (String.eqb (field item (opposite c)))
                 (active_list ds (opposite c))) data).

(** The text of one cell of the cross table and of one row of the field
    table, label apart. *)
Definition cross_cell (format_2f : float -> string) (data : list record)
    (stat : Stats) (j k : string) : string :=
  match stats_of (cross_selection data j k) with
  | Ret t => rjust 8 (format_2f (stat_item t stat))
  | Exc _ => rjust 8 "N/A"
  end.

Definition field_row (format_2f : float -> string) (ds : DataSet)
    (data : list record) (rows : Categories) (item : string) : string :=
  match stats_of (table_selection ds data rows item) with
  | Ret t =>
      (rjust 8 (format_2f (fst (fst t))) ++ rjust 8 (format_2f (snd (fst t)))
       ++ rjust 8 (format_2f (snd t)))%string
  | Exc _ => (rjust 8 "N/A" ++ rjust 8 "N/A" ++ rjust 8 "N/A")%string
  end.

(** The text printed at the top of each turn of the menu. *)
Definition menu_banner (h : string) : string :=
  (nl ++ h ++ nl ++ "Main Menu" ++ nl
   ++ join (map (fun kv => str_of_nat (fst kv) ++ ": " ++ snd kv ++ nl)
              menu_options))%string.

(** An instance of [int] on a [str] for running the console: an optional
    sign and decimal digits. *)
Definition int_of_decimal (s : string) : option Z :=
  let '(neg, body) :=
    match s with
    | String "-"%char r => (true, r)
    | String "+"%char r => (false, r)
    | _ => (false, s)
    end in
  match Builtins.scan_digits body 0%Z 0 with
  | (n, S _, EmptyString) => Some (if neg then (- n)%Z else n)
  | _ => None
  end.

(** Run from [s], [c] does not run out of fuel and leaves no more input
    than it found. *)
Definition bounded {A} (c : IO A) (s : console) : Prop :=
  fst (c s) <> OutOfFuel /\
  List.length (stdin (snd (c s))) <= List.length (stdin s).

(** Moreover [c] has read at least one line whenever it returns. *)
Definition progress {A} (c : IO A) (s : console) : Prop :=
  bounded c s /\
  forall a, fst (c s) = IoRet a ->
            List.length (stdin (snd (c s))) < List.length (stdin s).

(** From an object that satisfies [P], [c] returns [a] only with an object
    that satisfies [Q a] and raises [e] only with one that satisfies
    [R e]. *)
Definition triple {A} (P : DataSet -> Prop) (c : IO A)
    (Q : A -> DataSet -> Prop) (R : cli_exn -> DataSet -> Prop) : Prop :=
  forall s, P (self (cworld s)) ->
    match c s with
    | (IoRet a, s') => Q a (self (cworld s'))
    | (IoExc e, s') => R e (self (cworld s'))
    | (OutOfFuel, _) => True
    end.

(** [e] is an exception some call of [load_file] on [file] raises. *)
Definition load_raises (float_of_str : string -> option float)
    (file : option (list csv_line)) (e : exn) : Prop :=
  exists w0 w1, load_file float_of_str file w0 = (Exc e, w1).

(** The invariant of a session: consistent registries and the header [h]. *)
Definition session_inv (h : string) (ds : DataSet) : Prop :=
  Consistent ds /\ _header ds = Some h.

(** What may escape the menu: the end of the input, or an exception of the
    load. *)
Definition menu_escape (float_of_str : string -> option float)
    (file : option (list csv_line)) (e : cli_exn) : Prop :=
  e = EOFError \/ exists e', e = Raised e' /\ load_raises float_of_str file e'.

(** Inside [manage_filters]: the object is loaded and every listed label is
    a key of the registry. *)
Definition filtering (h : string) (category : Categories)
    (labels : list (nat * string)) (ds : DataSet) : Prop :=
  session_inv h ds /\
  (exists data, Loaded ds data) /\
  (forall label, In label (map snd labels) ->
                 In label (Dict.keys (labels_of ds category))).


(** What [main] prints before it asks for the header. *)
Definition greeting (username : string) : string :=
  ("Hello, please enter your name: " ++ "Welcome, " ++ username
   ++ ", to the Air Quality database." ++ nl)%string.

(** The console after a turn of the menu that printed [text] and left the
    object as it was. *)
Definition after_turn (ds : DataSet) (h out text : string)
    (rest : list string) : console :=
  mkConsole (mkWorld ds (out ++ menu_banner h ++ menu_prompt ++ text)%string)
    rest.

(* ===================================================================== *)
(** * What minimum, mean and maximum mean *)
(* ===================================================================== *)




(** [Sums l s]: [s] is what adding the items of [l] one after the other to
    zero gives, each addition rounded to binary64. *)
Inductive Sums : list float -> float -> Prop :=
| Sums_nil : Sums [] 0%float
| Sums_snoc l s x : Sums l s -> Sums (l ++ [x]) (s + x)%float.









(** Three readings of one sensor, the first of which is not a number, as
    [float("nan")] reads it from the file. *)
Module NanSample.

Definition data : list record :=
  [("10001", "Morning", PrimFloat.nan);
   ("10001", "Morning", 1%float);
   ("10001", "Morning", 0.5%float)].

Definition loaded : DataSet :=
  mkDataSet [("10001", true)] [("Morning", true)] (Some data) (Some "").

End NanSample.

Example DataSet_init_default :
  DataSet_init (PyStr "") = Ret Sample.fresh.
Proof. reflexivity. Qed.

Example load_example_file :
  Sample.load (Some Sample.file) (mkWorld Sample.fresh "")
  = (Ret PyNone, mkWorld Sample.loaded ("3 lines loaded" ++ nl)).
Proof. vm_compute. reflexivity. Qed.

Example display_cross_table_example :
  display_cross_table Builtins.fmt_2f AVG (mkWorld Sample.loaded "")
  = (Ret PyNone,
     mkWorld Sample.loaded
       (nl ++ "        Morning Evening" ++ nl
           ++ "10001      6.00     N/A" ++ nl
           ++ "10002       N/A    3.00" ++ nl)).
Proof. vm_compute. reflexivity. Qed.

Example display_field_table_example :
  display_field_table Builtins.fmt_2f ZIP_CODE (mkWorld Sample.loaded "")
  = (Ret PyNone,
     mkWorld Sample.loaded
       (nl ++ "The following data are from sensors matching these criteria:"
           ++ nl ++ nl
           ++ "- Morning" ++ nl
           ++ "- Evening" ++ nl
           ++ "        Minimum Average Maximum " ++ nl
           ++ "10001      5.00    6.00    7.00" ++ nl
           ++ "10002      3.00    3.00    3.00" ++ nl)).
Proof. vm_compute. reflexivity. Qed.

Example fmt_2f_examples :
  map Builtins.fmt_2f [0.125; 0.375; -0.0009765625; 1234.5; 7]%float
  = ["0.12"; "0.38"; "-0.00"; "1234.50"; "7.00"].
Proof. vm_compute. reflexivity. Qed.

(* ===================================================================== *)
(** * Dictionaries: lookup, update, comprehension *)
(* ===================================================================== *)

Module DictFacts.
Import Dict.

Section WithValues.
Context {V : Type}.
Implicit Types (d : t V) (k : string) (v : V).

Lemma get_None_keys d k : get d k = None <-> ~ In k (keys d).
Proof.
  induction d as [|[k' v'] d IH]; simpl.
  - tauto.
  - destruct (String.eqb_spec k' k) as [->|Hne].
    + split; [discriminate | intros H; exfalso; apply H; now left].
    + rewrite IH. split; intros H; [intros [?|?]; congruence | tauto].
Qed.

Lemma get_Some_In d k v : get d k = Some v -> In (k, v) d.
Proof.
  induction d as [|[k' v'] d IH]; simpl; [discriminate|].
  destruct (String.eqb_spec k' k) as [->|Hne].
  - intros [= ->]. now left.
  - intros H. right. now apply IH.
Qed.

Lemma In_get_Some d k v : wf d -> In (k, v) d -> get d k = Some v.
Proof.
  unfold wf, keys.
  induction d as [|[k' v'] d IH]; simpl; [tauto|].
  intros Hnd [Heq|Hin].
  - injection Heq as -> ->. now rewrite String.eqb_refl.
  - inversion Hnd as [|? ? Hnotin Hnd']; subst.
    destruct (String.eqb_spec k' k) as [->|Hne].
    + exfalso. apply Hnotin. change k with (fst (k, v)). now apply in_map.
    + now apply IH.
Qed.

Lemma get_set_same d k v : get (set d k v) k = Some v.
Proof.
  induction d as [|[k' v'] d IH]; simpl.
  - now rewrite String.eqb_refl.
  - destruct (String.eqb_spec k' k) as [->|Hne]; simpl.
    + now rewrite String.eqb_refl.
    + destruct (String.eqb_spec k' k); [contradiction | exact IH].
Qed.

Lemma get_set_other d k k' v : k' <> k -> get (set d k v) k' = get d k'.
Proof.
  intros Hne.
  induction d as [|[k0 v0] d IH]; simpl.
  - destruct (String.eqb_spec k k'); [congruence | reflexivity].
  - destruct (String.eqb_spec k0 k) as [->|Hne0]; simpl.
    + destruct (String.eqb_spec k k'); [congruence | reflexivity].
    + now rewrite IH.
Qed.

Lemma keys_set_present d k v v0 :
  get d k = Some v0 -> keys (set d k v) = keys d.
Proof.
  unfold keys.
  induction d as [|[k' v'] d IH]; simpl; [discriminate|].
  destruct (String.eqb_spec k' k) as [->|Hne]; simpl; [reflexivity|].
  intros H. now rewrite IH.
Qed.

Lemma In_keys_set d k v x :
  In x (keys (set d k v)) <-> x = k \/ In x (keys d).
Proof.
  unfold keys.
  induction d as [|[k' v'] d IH]; simpl.
  - intuition congruence.
  - destruct (String.eqb_spec k' k) as [->|Hne]; simpl.
    + intuition congruence.
    + rewrite IH. intuition congruence.
Qed.

Lemma wf_set d k v : wf d -> wf (set d k v).
Proof.
  unfold wf, keys.
  induction d as [|[k' v'] d IH]; simpl; intros Hnd.
  - constructor; [simpl; tauto | constructor].
  - inversion Hnd as [|? ? Hnotin Hnd']; subst.
    destruct (String.eqb_spec k' k) as [->|Hne]; simpl.
    + now constructor.
    + constructor; [|now apply IH].
      intros Hin. apply (In_keys_set d k v k') in Hin.
      destruct Hin as [->|Hin]; [congruence | contradiction].
Qed.

(** Writing back the value just read leaves the dictionary as it was. *)
Lemma set_get_id d k v : get d k = Some v -> set d k v = d.
Proof.
  induction d as [|[k' v'] d IH]; simpl; [discriminate|].
  destruct (String.eqb_spec k' k) as [->|Hne].
  - now intros [= ->].
  - intros H. now rewrite IH.
Qed.

(** The second of two writes to one key wins. *)
Lemma set_set d k v v' : set (set d k v) k v' = set d k v'.
Proof.
  induction d as [|[k0 v0] d IH]; simpl.
  - now rewrite String.eqb_refl.
  - destruct (String.eqb_spec k0 k) as [->|Hne]; simpl.
    + now rewrite String.eqb_refl.
    + destruct (String.eqb_spec k0 k); [contradiction | now rewrite IH].
Qed.

(** A property of the values that every write keeps. *)
Lemma set_values (P : V -> Prop) d k v :
  P v -> (forall k' v', In (k', v') d -> P v') ->
  forall k' v', In (k', v') (set d k v) -> P v'.
Proof.
  intros Hv.
  induction d as [|[k0 v0] d IH]; simpl; intros Hd k' v' Hin.
  - destruct Hin as [[= <- <-]|[]]. exact Hv.
  - destruct (String.eqb_spec k0 k) as [->|Hne]; simpl in Hin.
    + destruct Hin as [[= <- <-]|Hin]; [exact Hv|].
      apply (Hd k' v'). now right.
    + destruct Hin as [[= <- <-]|Hin].
      * apply (Hd k0 v0). now left.
      * apply IH with (k' := k'); [|exact Hin].
        intros k1 v1 H1. apply (Hd k1 v1). now right.
Qed.

(** The comprehension seen as a loop over an accumulator. *)
Lemma fold_set_keys (kvs : list (string * V)) d x :
  In x (keys (fold_left (fun d kv => set d (fst kv) (snd kv)) kvs d))
  <-> In x (keys d) \/ In x (map fst kvs).
Proof.
  revert d. induction kvs as [|[k v] kvs IH]; simpl; intros d.
  - tauto.
  - rewrite IH, In_keys_set. intuition.
Qed.

Lemma fold_set_wf (kvs : list (string * V)) d :
  wf d -> wf (fold_left (fun d kv => set d (fst kv) (snd kv)) kvs d).
Proof.
  revert d. induction kvs as [|[k v] kvs IH]; simpl; intros d Hd.
  - exact Hd.
  - apply IH. now apply wf_set.
Qed.

Lemma fold_set_values (P : V -> Prop) (kvs : list (string * V)) d :
  (forall kv, In kv kvs -> P (snd kv)) ->
  (forall k v, In (k, v) d -> P v) ->
  forall k v,
    In (k, v) (fold_left (fun d kv => set d (fst kv) (snd kv)) kvs d) ->
    P v.
Proof.
  revert d. induction kvs as [|[k0 v0] kvs IH]; simpl; intros d Hk Hd.
  - exact Hd.
  - apply IH.
    + intros kv Hin. apply Hk. now right.
    + apply set_values; [|exact Hd]. apply (Hk (k0, v0)). now left.
Qed.

Lemma comprehension_keys (kvs : list (string * V)) x :
  In x (keys (comprehension kvs)) <-> In x (map fst kvs).
Proof.
  unfold comprehension. rewrite fold_set_keys. simpl. tauto.
Qed.

Lemma comprehension_wf (kvs : list (string * V)) : wf (comprehension kvs).
Proof. apply fold_set_wf. constructor. Qed.

Lemma comprehension_values (P : V -> Prop) (kvs : list (string * V)) :
  (forall kv, In kv kvs -> P (snd kv)) ->
  forall k v, In (k, v) (comprehension kvs) -> P v.
Proof.
  intros Hk. apply fold_set_values; [exact Hk|]. intros ? ? [].
Qed.

End WithValues.

(** When every flag is on, the active keys are all the keys. *)
Lemma all_true_active (d : t bool) :
  (forall k v, In (k, v) d -> v = true) ->
  map fst (filter (fun kv => snd kv) (items d)) = keys d.
Proof.
  unfold items, keys.
  induction d as [|[k v] d IH]; simpl; intros H; [reflexivity|].
  rewrite (H k v) by now left. simpl. f_equal.
  apply IH. intros k' v' Hin. apply (H k' v'). now right.
Qed.

(** With unique keys, a key is listed as active exactly when it is bound
    to [True]. *)
Lemma active_iff_get (d : t bool) k :
  wf d ->
  (In k (map fst (filter (fun kv => snd kv) (items d)))
   <-> get d k = Some true).
Proof.
  intros Hwf. unfold items. rewrite in_map_iff. split.
  - intros [[k' v] [Hk Hin]]. simpl in Hk. subst k'.
    apply filter_In in Hin. destruct Hin as [Hin Hv]. simpl in Hv. subst v.
    now apply In_get_Some.
  - intros Hget. exists (k, true). split; [reflexivity|].
    apply filter_In. split; [now apply get_Some_In | reflexivity].
Qed.

End DictFacts.

(* ===================================================================== *)
(** * Running method bodies *)
(* ===================================================================== *)

Ltac run :=
  unfold bind, ret, raise, get_self, put_self, print, lift, try_except;
  simpl.

Lemma append_assoc (a b c : string) :
  ((a ++ b) ++ c = a ++ (b ++ c))%string.
Proof. induction a as [|ch a IH]; simpl; [reflexivity | now rewrite IH]. Qed.

Lemma append_nil_r (a : string) : (a ++ "")%string = a.
Proof. induction a as [|ch a IH]; simpl; [reflexivity | now rewrite IH]. Qed.

Lemma DataSet_eta (ds : DataSet) :
  mkDataSet (_labels_zip ds) (_labels_time ds) (_data ds) (_header ds) = ds.
Proof. now destruct ds. Qed.

Lemma world_eta (w : world) : mkWorld (self w) (stdout w) = w.
Proof. now destruct w. Qed.

Lemma Loaded_not_falsy ds data : Loaded ds data -> falsy (_data ds) = false.
Proof.
  intros [-> Hne]. destruct data; [contradiction | reflexivity].
Qed.

Lemma check_not_empty_loaded w data :
  Loaded (self w) data -> check_not_empty w = (Ret tt, w).
Proof.
  intros H. unfold check_not_empty. run.
  now rewrite (Loaded_not_falsy _ _ H).
Qed.

Lemma check_not_empty_falsy w :
  falsy (_data (self w)) = true ->
  check_not_empty w = (Exc EmptyDatasetError, w).
Proof. intros H. unfold check_not_empty. run. now rewrite H. Qed.

Lemma iter_data_loaded w data :
  Loaded (self w) data -> iter_data w = (Ret data, w).
Proof. intros [H _]. unfold iter_data. run. now rewrite H. Qed.

Lemma get_labels_loaded w data c :
  Loaded (self w) data ->
  get_labels c w = (Ret (Dict.keys (labels_of (self w) c)), w).
Proof.
  intros H. unfold get_labels, bind.
  now rewrite (check_not_empty_loaded _ _ H).
Qed.

Lemma get_active_labels_loaded w data c :
  Loaded (self w) data ->
  get_active_labels c w
  = (Ret (map fst (filter (fun kv => snd kv)
                     (Dict.items (labels_of (self w) c)))), w).
Proof.
  intros H. unfold get_active_labels, bind.
  now rewrite (check_not_empty_loaded _ _ H).
Qed.

(** A loop whose body only prints. *)
Lemma for_each_prints {A} (xs : list A) (body : A -> M unit)
    (text : A -> string) ds :
  (forall x out, In x xs ->
     body x (mkWorld ds out) = (Ret tt, mkWorld ds (out ++ text x)%string)) ->
  forall out,
    for_each xs body (mkWorld ds out)
    = (Ret tt, mkWorld ds (out ++ join (map text xs))%string).
Proof.
  induction xs as [|x xs IH]; simpl; intros Hbody out.
  - unfold ret. now rewrite append_nil_r.
  - unfold bind. rewrite Hbody by now left.
    rewrite IH by (intros; apply Hbody; now right).
    now rewrite append_assoc.
Qed.

(** The selection made by a boolean test that decides [P]. *)
Lemma filter_Selects (P : record -> Prop) (p : record -> bool) data :
  (forall r, In r data -> (p r = true <-> P r)) ->
  Selects P data (map conc_of (filter p data)).
Proof.
  induction data as [|r data IH]; simpl; intros Hp.
  - constructor.
  - assert (Hr := Hp r (or_introl eq_refl)).
    assert (Hrest : Selects P data (map conc_of (filter p data)))
      by (apply IH; intros; apply Hp; now right).
    destruct (p r) eqn:E; simpl.
    + apply Selects_take; [now apply Hr | exact Hrest].
    + apply Selects_skip; [|exact Hrest].
      intros HP. apply Hr in HP. discriminate.
Qed.

(** A selection is determined by the data and the property. *)
Lemma Selects_functional (P : record -> Prop) data sel1 sel2 :
  Selects P data sel1 -> Selects P data sel2 -> sel1 = sel2.
Proof.
  intros H1. revert sel2.
  induction H1 as [|r data sel HP _ IH|r data sel HP _ IH];
    intros sel2 H2; inversion H2; subst;
    try contradiction; try reflexivity.
  - f_equal. now apply IH.
  - now apply IH.
Qed.


Lemma Selects_nil_iff (P : record -> Prop) data :
  Selects P data [] <-> (forall r, In r data -> ~ P r).
Proof.
  split.
  - intros H. remember [] as sel eqn:E.
    induction H as [|r data sel HP _ IH|r data sel HP _ IH];
      [intros ? [] | discriminate |].
    intros r' [<-|Hin]; [exact HP | now apply IH].
  - induction data as [|r data IH]; intros H; [constructor|].
    apply Selects_skip; [apply H; now left|].
    apply IH. intros; apply H; now right.
Qed.

(** Every selected concentration comes from a record that satisfies [P]. *)
Lemma Selects_In (P : record -> Prop) data sel x :
  Selects P data sel -> In x sel ->
  exists r, In r data /\ P r /\ conc_of r = x.
Proof.
  intros H. induction H as [|r data sel HP _ IH|r data sel HP _ IH];
    simpl; intros Hin.
  - contradiction.
  - destruct Hin as [<-|Hin].
    + exists r. auto.
    + destruct (IH Hin) as (r' & ? & ? & ?). exists r'. auto.
  - destruct (IH Hin) as (r' & ? & ? & ?). exists r'. auto.
Qed.

(* ===================================================================== *)
(** * The header *)
(* ===================================================================== *)

(** C9, as the specification words its example: the header
    "Air Quality Report" is NOT a 19-character string that the setter
    accepts; it is accepted, but [len] gives 18. *)
Lemma header_example_is_not_19_chars :
  ~ (py_len "Air Quality Report" = 19 /\
     header_setter (PyStr "Air Quality Report") (mkWorld Sample.fresh "")
     = (Ret PyNone,
        mkWorld (set_header_attr Sample.fresh "Air Quality Report") "")).
Proof. intros [H _]. vm_compute in H. discriminate. Qed.

(** C9 (amended): the setter stores every string of at most 30 characters
    unchanged, raises [ValueError] on a longer one and [TypeError] on a value
    that is not a string, touching nothing in both cases; the 18-character
    header "Air Quality Report" is accepted and a 31-character header is
    rejected. *)
Theorem header_setter_validates (w : world) :
  (forall s, py_len s <= 30 ->
     header_setter (PyStr s) w
     = (Ret PyNone, mkWorld (set_header_attr (self w) s) (stdout w))) /\
  (forall s, 30 < py_len s -> header_setter (PyStr s) w = (Exc ValueError, w)) /\
  (forall v, (forall s, v <> PyStr s) ->
     header_setter v w = (Exc TypeError, w)) /\
  py_len "Air Quality Report" = 18 /\
  header_setter (PyStr "Air Quality Report") w
  = (Ret PyNone,
     mkWorld (set_header_attr (self w) "Air Quality Report") (stdout w)) /\
  py_len header_31 = 31 /\
  header_setter (PyStr header_31) w = (Exc ValueError, w).
Proof.
  assert (Hok : forall s, py_len s <= 30 ->
            header_setter (PyStr s) w
            = (Ret PyNone, mkWorld (set_header_attr (self w) s) (stdout w))).
  { intros s Hs. unfold header_setter.
    destruct (Nat.ltb_spec 30 (py_len s)); [lia | reflexivity]. }
  assert (Hlong : forall s, 30 < py_len s ->
            header_setter (PyStr s) w = (Exc ValueError, w)).
  { intros s Hs. unfold header_setter.
    destruct (Nat.ltb_spec 30 (py_len s)); [reflexivity | lia]. }
  split; [exact Hok|]. split; [exact Hlong|]. split.
  { intros v Hv. destruct v; try reflexivity. now destruct (Hv s). }
  split; [reflexivity|]. split; [apply Hok; vm_compute; lia|].
  split; [reflexivity|]. apply Hlong. vm_compute. lia.
Qed.

Lemma header_setter_validates_witness :
  py_len "PM2.5" <= 30 /\
  header_setter (PyStr "PM2.5") (mkWorld Sample.loaded "")
  = (Ret PyNone, mkWorld (set_header_attr Sample.loaded "PM2.5") "").
Proof.
  split.
  - vm_compute. lia.
  - apply (proj1 (header_setter_validates (mkWorld Sample.loaded ""))).
    vm_compute. lia.
Defined.

(** The constructor runs the same setter on the new object. *)
Lemma DataSet_init_accepts (s : string) :
  py_len s <= 30 ->
  DataSet_init (PyStr s) = Ret (mkDataSet Dict.empty Dict.empty None (Some s)).
Proof.
  intros Hs. unfold DataSet_init, header_setter.
  destruct (Nat.ltb_spec 30 (py_len s)); [lia | reflexivity].
Qed.

Lemma DataSet_init_wf (header : pyobj) (ds : DataSet) :
  DataSet_init header = Ret ds -> DataSet_wf ds.
Proof.
  unfold DataSet_init, header_setter.
  destruct header as [| | | |s]; try discriminate.
  destruct (Nat.ltb 30 (py_len s)); [discriminate|].
  intros [= <-]. split; constructor.
Qed.

Lemma header_setter_wf (v : pyobj) (w w' : world) (r : pyobj) :
  DataSet_wf (self w) ->
  header_setter v w = (Ret r, w') -> DataSet_wf (self w').
Proof.
  intros Hwf. unfold header_setter.
  destruct v as [| | | |s]; try discriminate.
  destruct (Nat.ltb 30 (py_len s)); [discriminate|].
  intros [= _ <-]. exact Hwf.
Qed.

(* ===================================================================== *)
(** * The empty states *)
(* ===================================================================== *)

Lemma falsy_every_query_fails (format_2f : float -> string) (w : world) :
  falsy (_data (self w)) = true -> every_query_fails format_2f w.
Proof.
  intros H. pose proof (check_not_empty_falsy w H) as Hc.
  unfold every_query_fails.
  repeat split; intros;
    unfold get_labels, get_active_labels, toggle_active_label,
      _cross_table_statistics, _table_statistics, display_cross_table,
      display_field_table, get_active_labels, bind;
    now rewrite Hc.
Qed.

(** C5: on an object on which nothing has been loaded, [get_labels],
    [get_active_labels], [toggle_active_label], both statistics and both
    table printers raise [EmptyDatasetError], whatever their arguments, and
    change nothing. *)
Theorem empty_dataset_operations_fail
    (format_2f : float -> string) (ds : DataSet) (out : string) :
  _data ds = None -> every_query_fails format_2f (mkWorld ds out).
Proof.
  intros H. apply falsy_every_query_fails. simpl. now rewrite H.
Qed.

Lemma empty_dataset_operations_fail_witness :
  _data Sample.fresh = None /\
  every_query_fails Builtins.fmt_2f (mkWorld Sample.fresh "").
Proof.
  split.
  - reflexivity.
  - apply (empty_dataset_operations_fail Builtins.fmt_2f Sample.fresh "").
    reflexivity.
Defined.

(** C10: a file with a header line and no data line makes [load_file] raise
    [EmptyDatasetError] after [self._data] has become the empty list; both
    registries keep what they held, and from then on every query raises
    [EmptyDatasetError]. *)
Theorem load_header_only_empties
    (float_of_str : string -> option float) (format_2f : float -> string)
    (ds : DataSet) (out : string) (h : list string) :
  let w' := mkWorld (set_data ds (Some [])) out in
  load_file float_of_str (Some [Line h]) (mkWorld ds out)
  = (Exc EmptyDatasetError, w') /\
  _data (self w') = Some [] /\
  (forall c, labels_of (self w') c = labels_of ds c) /\
  every_query_fails format_2f w'.
Proof.
  intros w'. split; [reflexivity|]. split; [reflexivity|].
  split; [intros []; reflexivity|].
  apply falsy_every_query_fails. reflexivity.
Qed.

(* ===================================================================== *)
(** * Toggling a label *)
(* ===================================================================== *)

Lemma labels_of_set_labels ds c d : labels_of (set_labels ds c d) c = d.
Proof. now destruct c. Qed.

Lemma labels_of_set_labels_opposite ds c d :
  labels_of (set_labels ds c d) (opposite c) = labels_of ds (opposite c).
Proof. now destruct c. Qed.

Lemma set_labels_same ds c : set_labels ds c (labels_of ds c) = ds.
Proof. destruct c; apply DataSet_eta. Qed.

Lemma set_labels_twice ds c d d' :
  set_labels (set_labels ds c d) c d' = set_labels ds c d'.
Proof. now destruct c. Qed.

Lemma toggle_active_label_loaded w data c label :
  Loaded (self w) data ->
  toggle_active_label c label w
  = match Dict.get (labels_of (self w) c) label with
    | None => (Exc KeyError, w)
    | Some v =>
        (Ret PyNone,
         mkWorld (set_labels (self w) c
                    (Dict.set (labels_of (self w) c) label (negb v)))
                 (stdout w))
    end.
Proof.
  intros H. unfold toggle_active_label, bind.
  rewrite (check_not_empty_loaded _ _ H). run.
  now destruct (Dict.get (labels_of (self w) c) label).
Qed.

(** C8: on a loaded object, toggling a registered label succeeds, returns
    [None], flips the flag of that label and modifies nothing else (other
    flags, the order of the keys, the other registry, the data, the header),
    and toggling it again gives back the object as it was; toggling a label
    that is not a key raises [KeyError]. *)
Theorem toggle_active_label_involutive
    (ds : DataSet) (data : list record) (out : string)
    (c : Categories) (label : string) :
  Loaded ds data ->
  (In label (Dict.keys (labels_of ds c)) ->
   exists v ds1,
     Dict.get (labels_of ds c) label = Some v /\
     toggle_active_label c label (mkWorld ds out)
     = (Ret PyNone, mkWorld ds1 out) /\
     Dict.get (labels_of ds1 c) label = Some (negb v) /\
     (forall k, k <> label ->
        Dict.get (labels_of ds1 c) k = Dict.get (labels_of ds c) k) /\
     Dict.keys (labels_of ds1 c) = Dict.keys (labels_of ds c) /\
     labels_of ds1 (opposite c) = labels_of ds (opposite c) /\
     _data ds1 = _data ds /\
     _header ds1 = _header ds /\
     toggle_active_label c label (mkWorld ds1 out)
     = (Ret PyNone, mkWorld ds out)) /\
  (~ In label (Dict.keys (labels_of ds c)) ->
   toggle_active_label c label (mkWorld ds out) = (Exc KeyError, mkWorld ds out)).
Proof.
  intros HL. split.
  - intros Hin.
    destruct (Dict.get (labels_of ds c) label) as [v|] eqn:Hget.
    2:{ apply DictFacts.get_None_keys in Hget. contradiction. }
    set (d1 := Dict.set (labels_of ds c) label (negb v)).
    exists v, (set_labels ds c d1).
    assert (HL1 : Loaded (set_labels ds c d1) data).
    { destruct HL as [Hd Hne]. split; [|exact Hne]. now destruct c. }
    repeat split.
    + rewrite (toggle_active_label_loaded _ data) by exact HL.
      simpl. now rewrite Hget.
    + rewrite labels_of_set_labels. apply DictFacts.get_set_same.
    + intros k Hk. rewrite labels_of_set_labels.
      now apply DictFacts.get_set_other.
    + rewrite labels_of_set_labels.
      now apply DictFacts.keys_set_present with (v0 := v).
    + apply labels_of_set_labels_opposite.
    + now destruct c.
    + now destruct c.
    + rewrite (toggle_active_label_loaded _ data) by exact HL1.
      simpl. rewrite labels_of_set_labels.
      unfold d1 at 1. rewrite DictFacts.get_set_same.
      rewrite set_labels_twice. unfold d1.
      rewrite DictFacts.set_set, Bool.negb_involutive.
      rewrite (DictFacts.set_get_id _ _ _ Hget).
      now rewrite set_labels_same.
  - intros Hnot. apply DictFacts.get_None_keys in Hnot.
    rewrite (toggle_active_label_loaded _ data) by exact HL.
    simpl. now rewrite Hnot.
Qed.

Lemma toggle_active_label_involutive_witness :
  Loaded Sample.loaded Sample.data /\
  In "10002" (Dict.keys (labels_of Sample.loaded ZIP_CODE)) /\
  exists v ds1,
    Dict.get (labels_of Sample.loaded ZIP_CODE) "10002" = Some v /\
    toggle_active_label ZIP_CODE "10002" (mkWorld Sample.loaded "")
    = (Ret PyNone, mkWorld ds1 "") /\
    Dict.get (labels_of ds1 ZIP_CODE) "10002" = Some (negb v) /\
    (forall k, k <> "10002" ->
       Dict.get (labels_of ds1 ZIP_CODE) k
       = Dict.get (labels_of Sample.loaded ZIP_CODE) k) /\
    Dict.keys (labels_of ds1 ZIP_CODE)
    = Dict.keys (labels_of Sample.loaded ZIP_CODE) /\
    labels_of ds1 (opposite ZIP_CODE)
    = labels_of Sample.loaded (opposite ZIP_CODE) /\
    _data ds1 = _data Sample.loaded /\
    _header ds1 = _header Sample.loaded /\
    toggle_active_label ZIP_CODE "10002" (mkWorld ds1 "")
    = (Ret PyNone, mkWorld Sample.loaded "").
Proof.
  assert (HL : Loaded Sample.loaded Sample.data)
    by (split; [reflexivity | discriminate]).
  assert (Hin : In "10002" (Dict.keys (labels_of Sample.loaded ZIP_CODE)))
    by (simpl; auto).
  split; [exact HL|]. split; [exact Hin|].
  exact (proj1 (toggle_active_label_involutive
                  Sample.loaded Sample.data "" ZIP_CODE "10002" HL) Hin).
Defined.

(* ===================================================================== *)
(** * The order of the floats; minimum, maximum and sum of a list *)
(* ===================================================================== *)










(** [min] and [max] return one of the items. *)
Lemma py_min_In (x : float) (xs : list float) : In (py_min x xs) (x :: xs).
Proof.
  unfold py_min. revert x.
  induction xs as [|y xs IH]; simpl; intros x; [now left|].
  destruct (PrimFloat.ltb y x).
  - right. apply IH.
  - destruct (IH x) as [H|H]; [now left | now right; right].
Qed.

Lemma py_max_In (x : float) (xs : list float) : In (py_max x xs) (x :: xs).
Proof.
  unfold py_max. revert x.
  induction xs as [|y xs IH]; simpl; intros x; [now left|].
  destruct (PrimFloat.ltb x y).
  - right. apply IH.
  - destruct (IH x) as [H|H]; [now left | now right; right].
Qed.




Lemma Sums_functional (l : list float) (s1 s2 : float) :
  Sums l s1 -> Sums l s2 -> s1 = s2.
Proof.
  intros H1. revert s2.
  induction H1 as [|l s x _ IH]; intros s2 H2.
  - inversion H2 as [|l' s' x' _ E]; [reflexivity|].
    now destruct l'.
  - inversion H2 as [E|l' s' x' H' E]; [now destruct l|].
    apply app_inj_tail in E. destruct E as [-> ->].
    f_equal. now apply IH.
Qed.



(* ===================================================================== *)
(** * Statistics *)
(* ===================================================================== *)

Lemma bind_Ret {A B} (c : M A) (k : A -> M B) w a w' :
  c w = (Ret a, w') -> bind c k w = k a w'.
Proof. intros H. unfold bind. now rewrite H. Qed.

Lemma bind_Exc {A B} (c : M A) (k : A -> M B) w e w' :
  c w = (Exc e, w') -> bind c k w = (Exc e, w').
Proof. intros H. unfold bind. now rewrite H. Qed.

Lemma cross_table_statistics_loaded w data z t :
  Loaded (self w) data ->
  _cross_table_statistics z t w
  = (stats_of
       (map conc_of
          (filter (fun item => String.eqb (zip_of item) z &&
                               String.eqb (time_of item) t) data)), w).
Proof.
  intros H. unfold _cross_table_statistics.
  rewrite (bind_Ret _ _ _ _ _ (check_not_empty_loaded _ _ H)).
  rewrite (bind_Ret _ _ _ _ _ (iter_data_loaded _ _ H)).
  now destruct (map conc_of _).
Qed.

Lemma cross_filter_Selects data z t :
  Selects (fun r => zip_of r = z /\ time_of r = t) data
    (map conc_of
       (filter (fun item => String.eqb (zip_of item) z &&
                            String.eqb (time_of item) t) data)).
Proof.
  apply filter_Selects. intros r _.
  now rewrite Bool.andb_true_iff, !String.eqb_eq.
Qed.




Example cross_table_statistics_no_match :
  _cross_table_statistics "10002" "Morning" (mkWorld Sample.loaded "")
  = (Exc NoMatchingItems, mkWorld Sample.loaded "").
Proof. reflexivity. Qed.

Lemma alternate_category_opposite c :
  (if Nat.eqb (Categories_value c) 0 then TIME_OF_DAY else ZIP_CODE)
  = opposite c.
Proof. now destruct c. Qed.

Lemma table_statistics_loaded w data c label :
  Loaded (self w) data ->
  _table_statistics c label w
  = (stats_of
       (map conc_of
          (filter (fun item =>
                     String.eqb (field item c) label &&
                     existsb (String.eqb (field item (opposite c)))
                       (map fst (filter (fun kv => snd kv)
                                   (Dict.items
                                      (labels_of (self w) (opposite c))))))
                  data)), w).
Proof.
  intros H. unfold _table_statistics.
  rewrite alternate_category_opposite.
  rewrite (bind_Ret _ _ _ _ _ (get_active_labels_loaded _ _ _ H)).
  rewrite (bind_Ret _ _ _ _ _ (check_not_empty_loaded _ _ H)).
  rewrite (bind_Ret _ _ _ _ _ (iter_data_loaded _ _ H)).
  now destruct (map conc_of _).
Qed.


Lemma DataSet_wf_labels ds c : DataSet_wf ds -> Dict.wf (labels_of ds c).
Proof. intros [Hz Ht]. now destruct c. Qed.



Lemma Sample_loaded_Loaded : Loaded Sample.loaded Sample.data.
Proof. split; [reflexivity | discriminate]. Qed.

Lemma Sample_loaded_wf : DataSet_wf Sample.loaded.
Proof.
  split; unfold Dict.wf; simpl;
    repeat (constructor; [simpl; intuition discriminate|]); constructor.
Qed.


(** On the example, the only evening record has zip "10002": with that label
    off nothing is left for "Evening", while "Morning" is untouched. *)
Example table_statistics_after_toggle :
  toggle_active_label ZIP_CODE "10002" (mkWorld Sample.loaded "")
  = (Ret PyNone, mkWorld Sample.zip_10002_off "") /\
  _table_statistics TIME_OF_DAY "Evening" (mkWorld Sample.loaded "")
  = (Ret (3%float, 3%float, 3%float), mkWorld Sample.loaded "") /\
  _table_statistics TIME_OF_DAY "Evening" (mkWorld Sample.zip_10002_off "")
  = (Exc NoMatchingItems, mkWorld Sample.zip_10002_off "") /\
  _table_statistics TIME_OF_DAY "Morning" (mkWorld Sample.zip_10002_off "")
  = (Ret (5%float, 6%float, 7%float), mkWorld Sample.zip_10002_off "").
Proof. repeat split. Qed.

(* ===================================================================== *)
(** * The cross table *)
(* ===================================================================== *)

Lemma stats_of_Exc sel e : stats_of sel = Exc e -> sel = [] /\ e = NoMatchingItems.
Proof. destruct sel; simpl; [intros [= <-]; auto | discriminate]. Qed.

(** One cell of the cross table: what the [try] statement prints. *)
Lemma cross_table_cell (format_2f : float -> string) ds data stat j k out :
  Loaded ds data ->
  try_except
    (statistics <- _cross_table_statistics j k ;;
     print (rjust 8 (format_2f (stat_item statistics stat))))
    NoMatchingItems
    (print (rjust 8 "N/A")) (mkWorld ds out)
  = (Ret tt,
     mkWorld ds
       (out ++
        match stats_of
                (map conc_of
                   (filter (fun item => String.eqb (zip_of item) j &&
                                        String.eqb (time_of item) k) data))
        with
        | Ret t => rjust 8 (format_2f (stat_item t stat))
        | Exc _ => rjust 8 "N/A"
        end)%string).
Proof.
  intros HL. unfold try_except, bind.
  rewrite (cross_table_statistics_loaded _ data) by exact HL.
  destruct (stats_of _) as [t|e] eqn:E.
  - reflexivity.
  - apply stats_of_Exc in E. destruct E as [_ ->]. reflexivity.
Qed.

(** C6: on a loaded object [_cross_table_statistics] raises
    [NoMatchingItems] exactly when no record has both labels, and
    [display_cross_table] returns normally after printing the grid of the
    active labels in which such a cell is the text "N/A" right-aligned on 8
    columns, every other cell being the formatted statistic of its own
    pair. *)
Theorem cross_table_no_match_placeholder
    (format_2f : float -> string)
    (ds : DataSet) (data : list record) (out : string) :
  Loaded ds data ->
  (forall z t,
     _cross_table_statistics z t (mkWorld ds out)
     = (Exc NoMatchingItems, mkWorld ds out)
     <-> (forall r, In r data -> ~ (zip_of r = z /\ time_of r = t))) /\
  (forall stat,
     exists zips times cell,
       get_active_labels ZIP_CODE (mkWorld ds out)
       = (Ret zips, mkWorld ds out) /\
       get_active_labels TIME_OF_DAY (mkWorld ds out)
       = (Ret times, mkWorld ds out) /\
       display_cross_table format_2f stat (mkWorld ds out)
       = (Ret PyNone,
          mkWorld ds (out ++ render_cross_table cell zips times)%string) /\
       forall j k,
         ((forall r, In r data -> ~ (zip_of r = j /\ time_of r = k)) ->
          cell j k = "     N/A") /\
         (forall t,
            _cross_table_statistics j k (mkWorld ds out)
            = (Ret t, mkWorld ds out) ->
            cell j k = rjust 8 (format_2f (stat_item t stat)))).
Proof.
  intros HL.
  assert (Hnil : forall z t,
            (forall r, In r data -> ~ (zip_of r = z /\ time_of r = t)) ->
            map conc_of
              (filter (fun item => String.eqb (zip_of item) z &&
                                   String.eqb (time_of item) t) data) = []).
  { intros z t Hno.
    apply (Selects_functional
             (fun r => zip_of r = z /\ time_of r = t) data);
      [apply cross_filter_Selects|].
    now apply Selects_nil_iff. }
  split.
  - intros z t. rewrite (cross_table_statistics_loaded _ data) by exact HL.
    split.
    + intros [=E]. apply stats_of_Exc in E. destruct E as [E _].
      apply (proj1 (Selects_nil_iff
                      (fun r => zip_of r = z /\ time_of r = t) data)).
      rewrite <- E. apply cross_filter_Selects.
    + intros Hno. now rewrite (Hnil z t Hno).
  - intros stat.
    set (cell := fun j k =>
           match stats_of
                   (map conc_of
                      (filter (fun item => String.eqb (zip_of item) j &&
                                           String.eqb (time_of item) k) data))
           with
           | Ret t => rjust 8 (format_2f (stat_item t stat))
           | Exc _ => rjust 8 "N/A"
           end).
    set (act := fun c =>
           map fst (filter (fun kv : string * bool => snd kv)
                      (Dict.items (labels_of ds c)))).
    assert (Hact : forall c o,
              get_active_labels c (mkWorld ds o) = (Ret (act c), mkWorld ds o)).
    { intros c o. now rewrite (get_active_labels_loaded _ data) by exact HL. }
    exists (act ZIP_CODE), (act TIME_OF_DAY), cell.
    split; [apply Hact|]. split; [apply Hact|]. split.
    + unfold display_cross_table.
      rewrite (bind_Ret _ _ _ _ _
                 (check_not_empty_loaded (mkWorld ds out) data HL)).
      unfold print at 1 2. unfold bind at 1 2. simpl.
      rewrite (bind_Ret _ _ _ _ _ (Hact TIME_OF_DAY _)).
      erewrite bind_Ret.
      2:{ apply for_each_prints with (text := rjust 8). reflexivity. }
      unfold print at 1. unfold bind at 1. simpl.
      rewrite (bind_Ret _ _ _ _ _ (Hact ZIP_CODE _)).
      erewrite bind_Ret.
      2:{ apply for_each_prints
            with (text := fun j =>
                    (ljust 7 j ++ join (map (cell j) (act TIME_OF_DAY))
                     ++ nl)%string).
          intros j o _.
          unfold print at 1. unfold bind at 1. simpl.
          rewrite (bind_Ret _ _ _ _ _ (Hact TIME_OF_DAY _)).
          erewrite bind_Ret.
          2:{ apply for_each_prints with (text := cell j).
              intros k o' _. now apply cross_table_cell. }
          unfold print, ret. simpl. now rewrite !append_assoc. }
      unfold ret, render_cross_table. now rewrite !append_assoc.
    + intros j k. split.
      * intros Hno. unfold cell. now rewrite (Hnil j k Hno).
      * intros t Ht.
        rewrite (cross_table_statistics_loaded _ data) in Ht by exact HL.
        injection Ht as Ht. unfold cell. now rewrite Ht.
Qed.

Lemma cross_table_no_match_placeholder_witness :
  Loaded Sample.loaded Sample.data /\
  (_cross_table_statistics "10002" "Morning" (mkWorld Sample.loaded "")
   = (Exc NoMatchingItems, mkWorld Sample.loaded "")
   <-> (forall r, In r Sample.data ->
                  ~ (zip_of r = "10002" /\ time_of r = "Morning"))).
Proof.
  split; [exact Sample_loaded_Loaded|].
  exact (proj1 (cross_table_no_match_placeholder Builtins.fmt_2f
                  Sample.loaded Sample.data "" Sample_loaded_Loaded)
           "10002" "Morning").
Defined.

(* ===================================================================== *)
(** * Loading *)
(* ===================================================================== *)

Section Loading.

Variable float_of_str : string -> option float.

Lemma parse_row_Exc row e :
  parse_row float_of_str row = Exc e -> e = IndexError \/ e = ValueError.
Proof.
  unfold parse_row.
  destruct (nth_error row 1); [|intros [= <-]; auto].
  destruct (nth_error row 4); [|intros [= <-]; auto].
  destruct (nth_error row 5) as [c|]; [|intros [= <-]; auto].
  destruct (float_of_str c); [discriminate | intros [= <-]; auto].
Qed.

Lemma parse_row_malformed row :
  malformed float_of_str (Line row) ->
  exists e, parse_row float_of_str row = Exc e.
Proof.
  unfold malformed, parse_row.
  destruct (nth_error row 1); [|eauto].
  destruct (nth_error row 4); [|eauto].
  destruct (nth_error row 5) as [c|]; [|eauto].
  intros ->. eauto.
Qed.

(** The comprehension only fails with one of the three parse errors. *)
Lemma read_rows_Exc lines e :
  read_rows float_of_str lines = Exc e -> parse_error e.
Proof.
  unfold parse_error.
  induction lines as [|[row|] lines IH]; simpl.
  - discriminate.
  - destruct (parse_row float_of_str row) as [r|e'] eqn:E.
    + destruct (read_rows float_of_str lines); [discriminate|].
      intros [= <-]. now apply IH.
    + intros [= <-]. apply parse_row_Exc in E. tauto.
  - intros [= <-]. auto.
Qed.

(** It fails as soon as one line is malformed. *)
Lemma read_rows_malformed lines :
  Exists (malformed float_of_str) lines ->
  exists e, read_rows float_of_str lines = Exc e.
Proof.
  induction 1 as [l lines Hbad | l lines _ IH].
  - destruct l as [row|]; simpl; [|eauto].
    destruct (parse_row_malformed row Hbad) as [e ->]. eauto.
  - destruct l as [row|]; simpl; [|eauto].
    destruct (parse_row float_of_str row); [|eauto].
    destruct IH as [e ->]. eauto.
Qed.

(** A load that stops on an exception other than [EmptyDatasetError] has
    not touched the object nor printed anything. *)
Lemma load_file_Exc_unchanged file w e w' :
  load_file float_of_str file w = (Exc e, w') ->
  e <> EmptyDatasetError -> w' = w.
Proof.
  unfold load_file.
  destruct file as [[|[h|] rest]|]; try (intros [= <- <-]; reflexivity).
  unfold bind, lift.
  destruct (read_rows float_of_str rest) as [data|e'];
    [|intros [= <- <-]; reflexivity].
  destruct data as [|r data]; simpl.
  - intros [= <- <-] He. now destruct He.
  - discriminate.
Qed.

(** What a successful load has done. *)
Lemma load_file_Ret file w r w' :
  load_file float_of_str file w = (Ret r, w') ->
  exists h rest data,
    file = Some (Line h :: rest) /\
    read_rows float_of_str rest = Ret data /\
    data <> [] /\
    r = PyNone /\
    w' = mkWorld
           (mkDataSet
              (Dict.comprehension
                 (map (fun i => (field i ZIP_CODE, true)) data))
              (Dict.comprehension
                 (map (fun i => (field i TIME_OF_DAY, true)) data))
              (Some data) (_header (self w)))
           (stdout w ++ (str_of_nat (List.length data) ++ " lines loaded"
                         ++ nl))%string.
Proof.
  unfold load_file.
  destruct file as [[|[h|] rest]|]; try discriminate.
  unfold bind, lift.
  destruct (read_rows float_of_str rest) as [data|e'] eqn:E;
    [|discriminate].
  destruct data as [|r0 data]; simpl; [discriminate|].
  intros [= <- <-]. exists h, rest, (r0 :: data).
  repeat split; [exact E | discriminate].
Qed.

(** C3: when the header line cannot be read, or some data line cannot be
    read, has no field 5 or has a field 5 that is not numeric, [load_file]
    raises a parse error ([csv.Error], [IndexError] or [ValueError]) and
    the object and the output are as before the call: records and both
    registries are unchanged. *)
Theorem load_file_parse_error_atomic
    (first : csv_line) (rest : list csv_line) (w : world) :
  first = BadLine \/ Exists (malformed float_of_str) rest ->
  exists e,
    parse_error e /\
    load_file float_of_str (Some (first :: rest)) w = (Exc e, w).
Proof.
  intros H. destruct first as [h|].
  - destruct H as [H|H]; [discriminate|].
    destruct (read_rows_malformed rest H) as [e He].
    exists e. split; [now apply (read_rows_Exc rest)|].
    unfold load_file, bind, lift. now rewrite He.
  - exists CsvError. split; [left; reflexivity | reflexivity].
Qed.

(** C4: after a successful load the object is loaded and, for each
    category, the keys of the registry are exactly the values of that
    field in the loaded records, without repetition and whatever the
    registry held before; every key is bound to [True]; and
    [get_active_labels] returns the same list as [get_labels]. *)
Theorem load_rebuilds_registries
    (file : option (list csv_line)) (w w' : world) (r : pyobj) :
  load_file float_of_str file w = (Ret r, w') ->
  exists data,
    Loaded (self w') data /\
    forall c,
      (forall k, In k (Dict.keys (labels_of (self w') c))
                 <-> exists item, In item data /\ field item c = k) /\
      NoDup (Dict.keys (labels_of (self w') c)) /\
      (forall k, In k (Dict.keys (labels_of (self w') c)) ->
                 Dict.get (labels_of (self w') c) k = Some true) /\
      exists l,
        get_labels c w' = (Ret l, w') /\
        get_active_labels c w' = (Ret l, w').
Proof.
  intros H.
  destruct (load_file_Ret _ _ _ _ H)
    as (h & rest & data & _ & _ & Hne & _ & ->).
  exists data.
  assert (HL : Loaded
                 (self {| self := mkDataSet
                     (Dict.comprehension
                        (map (fun i => (field i ZIP_CODE, true)) data))
                     (Dict.comprehension
                        (map (fun i => (field i TIME_OF_DAY, true)) data))
                     (Some data) (_header (self w));
                   stdout := (stdout w ++ (str_of_nat (List.length data)
                               ++ " lines loaded" ++ nl))%string |}) data)
    by (split; [reflexivity | exact Hne]).
  split; [exact HL|].
  intros c.
  set (d := Dict.comprehension (map (fun i => (field i c, true)) data)).
  assert (Hd : labels_of
                 (mkDataSet
                    (Dict.comprehension
                       (map (fun i => (field i ZIP_CODE, true)) data))
                    (Dict.comprehension
                       (map (fun i => (field i TIME_OF_DAY, true)) data))
                    (Some data) (_header (self w))) c = d)
    by now destruct c.
  assert (Hwf : Dict.wf d) by apply DictFacts.comprehension_wf.
  assert (Htrue : forall k v, In (k, v) d -> v = true).
  { apply DictFacts.comprehension_values.
    intros kv Hin. apply in_map_iff in Hin.
    destruct Hin as (i & <- & _). reflexivity. }
  simpl self. rewrite Hd.
  split; [|split; [exact Hwf | split]].
  - intros k. unfold d. rewrite DictFacts.comprehension_keys.
    rewrite map_map. simpl. rewrite in_map_iff.
    split; intros (i & A & B); exists i; auto.
  - intros k Hin. unfold Dict.keys in Hin. apply in_map_iff in Hin.
    destruct Hin as ([k' v] & Hk & Hin). simpl in Hk. subst k'.
    rewrite (Htrue k v Hin) in Hin.
    now apply DictFacts.In_get_Some.
  - exists (Dict.keys d). split.
    + rewrite (get_labels_loaded _ data) by exact HL. simpl self.
      now rewrite Hd.
    + rewrite (get_active_labels_loaded _ data) by exact HL. simpl self.
      rewrite Hd. now rewrite (DictFacts.all_true_active d Htrue).
Qed.

(** Unique keys are an invariant of the class. *)
Lemma load_file_wf file w r w' :
  load_file float_of_str file w = (Ret r, w') -> DataSet_wf (self w').
Proof.
  intros H.
  destruct (load_file_Ret _ _ _ _ H) as (h & rest & data & _ & _ & _ & _ & ->).
  split; apply DictFacts.comprehension_wf.
Qed.

End Loading.

Lemma toggle_active_label_wf c label w r w' :
  DataSet_wf (self w) ->
  toggle_active_label c label w = (Ret r, w') -> DataSet_wf (self w').
Proof.
  intros [Hz Ht]. unfold toggle_active_label, check_not_empty. run.
  destruct (falsy (_data (self w))); [discriminate|].
  destruct (Dict.get (labels_of (self w) c) label); [|discriminate].
  intros [= _ <-]. simpl.
  destruct c; split; simpl; auto; now apply DictFacts.wf_set.
Qed.

Lemma load_file_parse_error_atomic_witness :
  (Line ["h"] = BadLine \/
   Exists (malformed Builtins.float_of_decimal)
     [Sample.row "10001" "Morning" "5.0";
      Sample.row "10001" "Noon" "n/a"]) /\
  exists e,
    parse_error e /\
    Sample.load
      (Some [Line ["h"];
             Sample.row "10001" "Morning" "5.0";
             Sample.row "10001" "Noon" "n/a"])
      (mkWorld Sample.zip_10002_off "")
    = (Exc e, mkWorld Sample.zip_10002_off "").
Proof.
  assert (H : Line ["h"] = BadLine \/
              Exists (malformed Builtins.float_of_decimal)
                [Sample.row "10001" "Morning" "5.0";
                 Sample.row "10001" "Noon" "n/a"]).
  { right. apply Exists_cons_tl. apply Exists_cons_hd.
    vm_compute. reflexivity. }
  split; [exact H|].
  exact (load_file_parse_error_atomic Builtins.float_of_decimal _ _
           (mkWorld Sample.zip_10002_off "") H).
Defined.

Lemma load_rebuilds_registries_witness :
  Sample.load (Some Sample.file) (mkWorld Sample.zip_10002_off "")
  = (Ret PyNone, mkWorld Sample.loaded ("3 lines loaded" ++ nl)) /\
  exists data,
    Loaded Sample.loaded data /\
    forall c,
      (forall k, In k (Dict.keys (labels_of Sample.loaded c))
                 <-> exists item, In item data /\ field item c = k) /\
      NoDup (Dict.keys (labels_of Sample.loaded c)) /\
      (forall k, In k (Dict.keys (labels_of Sample.loaded c)) ->
                 Dict.get (labels_of Sample.loaded c) k = Some true) /\
      exists l,
        get_labels c (mkWorld Sample.loaded ("3 lines loaded" ++ nl))
        = (Ret l, mkWorld Sample.loaded ("3 lines loaded" ++ nl)) /\
        get_active_labels c (mkWorld Sample.loaded ("3 lines loaded" ++ nl))
        = (Ret l, mkWorld Sample.loaded ("3 lines loaded" ++ nl)).
Proof.
  assert (H : Sample.load (Some Sample.file)
                (mkWorld Sample.zip_10002_off "")
              = (Ret PyNone, mkWorld Sample.loaded ("3 lines loaded" ++ nl)))
    by (vm_compute; reflexivity).
  split; [exact H|].
  exact (load_rebuilds_registries Builtins.float_of_decimal
           (Some Sample.file) (mkWorld Sample.zip_10002_off "")
           (mkWorld Sample.loaded ("3 lines loaded" ++ nl)) PyNone H).
Defined.

(** C7 on the example file: the load replaces the records and rebuilds both
    registries with every label on, but what it returns is [None]; the count
    of records is only printed. *)
Theorem load_file_returns_None_not_count :
  Sample.load (Some Sample.file) (mkWorld Sample.zip_10002_off "")
  = (Ret PyNone, mkWorld Sample.loaded ("3 lines loaded" ++ nl)) /\
  List.length Sample.data = 3 /\
  PyNone <> PyInt 3.
Proof.
  split; [vm_compute; reflexivity|]. split; [reflexivity | discriminate].
Qed.

(* ===================================================================== *)
(** * More on dictionaries and on the two kinds of state *)
(* ===================================================================== *)

Lemma state_cases (ds : DataSet) :
  falsy (_data ds) = true \/ exists data, Loaded ds data.
Proof.
  destruct (_data ds) as [[|r data]|] eqn:E; simpl; auto.
  right. exists (r :: data). split; [exact E | discriminate].
Qed.

Lemma filter_filter_ext {A} (p q r : A -> bool) (l : list A) :
  (forall y, In y l -> r y = q y && p y) ->
  filter p (filter q l) = filter r l.
Proof.
  induction l as [|x l IH]; simpl; intros H; [reflexivity|].
  rewrite (H x) by now left.
  destruct (q x); simpl.
  - destruct (p x); rewrite IH by (intros; apply H; now right); reflexivity.
  - apply IH. intros; apply H; now right.
Qed.

Lemma existsb_eqb_In (l : list string) (k : string) :
  existsb (String.eqb k) l = true <-> In k l.
Proof.
  rewrite existsb_exists. split.
  - intros (x & Hin & Hx). apply String.eqb_eq in Hx. now subst.
  - intros Hin. exists k. split; [exact Hin | apply String.eqb_refl].
Qed.

Lemma keys_set {V} (d : Dict.t V) (k : string) (v : V) :
  Dict.keys (Dict.set d k v)
  = if existsb (String.eqb k) (Dict.keys d) then Dict.keys d
    else Dict.keys d ++ [k].
Proof.
  unfold Dict.keys.
  induction d as [|[k' v'] d IH]; simpl; [reflexivity|].
  rewrite (String.eqb_sym k k').
  destruct (String.eqb k' k); simpl; [reflexivity|].
  rewrite IH. now destruct (existsb _ _).
Qed.

(** The keys after a run of writes: the old keys, then the new ones in the
    order of their first write. *)
Lemma keys_fold_set {V} (kvs : list (string * V)) (d : Dict.t V) :
  Dict.keys (fold_left (fun d kv => Dict.set d (fst kv) (snd kv)) kvs d)
  = Dict.keys d
    ++ filter (fun y => negb (existsb (String.eqb y) (Dict.keys d)))
         (first_occurrences (map fst kvs)).
Proof.
  revert d. induction kvs as [|[k v] kvs IH]; simpl; intros d.
  - now rewrite app_nil_r.
  - rewrite IH, keys_set.
    destruct (existsb (String.eqb k) (Dict.keys d)) eqn:E; simpl.
    + f_equal. symmetry. apply filter_filter_ext. intros y _.
      destruct (String.eqb_spec y k) as [->|Hne]; simpl; [now rewrite E|].
      reflexivity.
    + rewrite <- app_assoc. simpl. do 2 f_equal.
      symmetry. apply filter_filter_ext. intros y _.
      rewrite existsb_app. simpl. rewrite Bool.orb_false_r.
      rewrite Bool.negb_orb. apply Bool.andb_comm.
Qed.

Lemma keys_comprehension {V} (kvs : list (string * V)) :
  Dict.keys (Dict.comprehension kvs) = first_occurrences (map fst kvs).
Proof.
  unfold Dict.comprehension. rewrite keys_fold_set. simpl.
  induction (first_occurrences (map fst kvs)) as [|x l IH]; simpl; congruence.
Qed.

(** With unique keys the active labels are the keys whose flag is on, in
    the order of the keys. *)
Lemma active_filter_keys (d : Dict.t bool) :
  Dict.wf d ->
  map fst (filter (fun kv => snd kv) (Dict.items d))
  = filter (is_on d) (Dict.keys d).
Proof.
  unfold Dict.wf, Dict.items, Dict.keys, is_on.
  induction d as [|[k v] d IH]; simpl; intros Hnd; [reflexivity|].
  inversion Hnd as [|? ? Hnotin Hnd']; subst.
  rewrite String.eqb_refl.
  assert (Hrest : filter
                    (fun k0 => match (if String.eqb k k0 then Some v
                                      else Dict.get d k0) with
                               | Some true => true
                               | _ => false
                               end) (map fst d)
                  = filter (fun k0 => match Dict.get d k0 with
                                      | Some true => true
                                      | _ => false
                                      end) (map fst d)).
  { apply filter_ext_in. intros y Hy.
    destruct (String.eqb_spec k y) as [->|Hne]; [contradiction | reflexivity]. }
  rewrite Hrest, <- (IH Hnd').
  now destruct v.
Qed.

(* ===================================================================== *)
(** * More on loading *)
(* ===================================================================== *)

Section MoreLoading.

Variable float_of_str : string -> option float.

Lemma parse_row_Ret_iff row r :
  parse_row float_of_str row = Ret r <-> well_formed float_of_str (Line row) r.
Proof.
  unfold parse_row, well_formed. split.
  - destruct (nth_error row 1) as [zip|] eqn:E1; [|discriminate].
    destruct (nth_error row 4) as [time|] eqn:E4; [|discriminate].
    destruct (nth_error row 5) as [c|] eqn:E5; [|discriminate].
    destruct (float_of_str c) as [f|] eqn:Ef; [|discriminate].
    intros [= <-]. exists row, zip, time, c, f. repeat split; auto.
  - intros (row' & zip & time & c & f & [= <-] & -> & -> & -> & -> & ->).
    reflexivity.
Qed.

Lemma read_rows_Ret_iff lines data :
  read_rows float_of_str lines = Ret data
  <-> Forall2 (well_formed float_of_str) lines data.
Proof.
  revert data. induction lines as [|l lines IH]; intros data; simpl.
  - split; [intros [= <-]; constructor | intros H; now inversion H].
  - destruct l as [row|].
    + destruct (parse_row float_of_str row) as [r|e] eqn:E.
      * destruct (read_rows float_of_str lines) as [rs|e'] eqn:E'.
        -- split.
           ++ intros [= <-]. constructor;
                [now apply parse_row_Ret_iff | now apply IH].
           ++ intros H. inversion H as [|? r' ? rs' Hwf Hrest]; subst.
              apply parse_row_Ret_iff in Hwf. apply IH in Hrest.
              congruence.
        -- split; [discriminate|].
           intros H. inversion H as [|? r' ? rs' Hwf Hrest]; subst.
           apply IH in Hrest. discriminate.
      * split; [discriminate|].
        intros H. inversion H as [|? r' ? rs' Hwf Hrest]; subst.
        apply parse_row_Ret_iff in Hwf. congruence.
    + split; [discriminate|].
      intros H. inversion H as [|? r' ? rs' Hwf Hrest]; subst.
      destruct Hwf as (row & ? & ? & ? & ? & [=] & _).
Qed.

Lemma load_file_ok h rest data w :
  read_rows float_of_str rest = Ret data -> data <> [] ->
  load_file float_of_str (Some (Line h :: rest)) w
  = (Ret PyNone, after_load w data).
Proof.
  intros E Hne. unfold load_file, bind, lift. rewrite E.
  destruct data as [|r0 data]; [contradiction | reflexivity].
Qed.

End MoreLoading.

Section LoadingProperties.

Variable float_of_str : string -> option float.

(** X1: after a successful load [get_labels] lists, for each category, the
    distinct values of that field in the order in which they first occur in
    the loaded records. *)
Theorem get_labels_after_load
    (file : option (list csv_line)) (w w' : world) (r : pyobj) :
  load_file float_of_str file w = (Ret r, w') ->
  exists data,
    _data (self w') = Some data /\
    forall c,
      get_labels c w'
      = (Ret (first_occurrences (map (fun item => field item c) data)), w').
Proof.
  intros H.
  destruct (load_file_Ret _ _ _ _ _ H)
    as (h & rest & data & _ & _ & Hne & _ & ->).
  exists data. split; [reflexivity|]. intros c.
  rewrite (get_labels_loaded _ data) by (split; [reflexivity | exact Hne]).
  do 2 f_equal. destruct c; simpl; rewrite keys_comprehension, map_map;
    reflexivity.
Qed.

(** X2: [load_file] returns normally exactly when the file opens, its first
    line can be read, there is at least one more line and every further line
    is well formed; the records are then those lines in file order, the
    registries are rebuilt from them, the header is kept, and the text
    printed is the number of data lines followed by " lines loaded". *)
Theorem load_file_succeeds_iff
    (file : option (list csv_line)) (w w' : world) (r : pyobj) :
  load_file float_of_str file w = (Ret r, w')
  <-> exists h rest data,
        file = Some (Line h :: rest) /\
        Forall2 (well_formed float_of_str) rest data /\
        rest <> [] /\
        r = PyNone /\
        _data (self w') = Some data /\
        stdout w'
        = (stdout w ++ (str_of_nat (List.length rest) ++ " lines loaded"
                        ++ nl))%string /\
        w' = after_load w data.
Proof.
  split.
  - intros H.
    destruct (load_file_Ret _ _ _ _ _ H)
      as (h & rest & data & -> & Hrows & Hne & -> & ->).
    apply read_rows_Ret_iff in Hrows.
    exists h, rest, data.
    assert (Hlen : List.length rest = List.length data)
      by (clear - Hrows; induction Hrows; simpl; congruence).
    repeat split; auto.
    + intros ->. inversion Hrows. congruence.
    + simpl. now rewrite Hlen.
  - intros (h & rest & data & -> & Hrows & Hne & -> & _ & _ & ->).
    assert (Hd : data <> [])
      by (intros ->; inversion Hrows; congruence).
    apply read_rows_Ret_iff in Hrows.
    now apply load_file_ok.
Qed.

(** X3: when the lines before the first unusable line are well formed, that
    line decides the exception: [csv.Error] for a line the reader rejects,
    [IndexError] for a line of fewer than six fields, [ValueError] for a
    field 5 that is not numeric; in each case nothing has changed. *)
Theorem load_file_first_bad_line
    (h : list string) (good : list csv_line) (recs : list record)
    (bad : csv_line) (tail : list csv_line) (w : world) :
  Forall2 (well_formed float_of_str) good recs ->
  (bad = BadLine ->
   load_file float_of_str (Some (Line h :: good ++ bad :: tail)) w
   = (Exc CsvError, w)) /\
  (forall row, bad = Line row -> List.length row < 6 ->
   load_file float_of_str (Some (Line h :: good ++ bad :: tail)) w
   = (Exc IndexError, w)) /\
  (forall row c, bad = Line row -> nth_error row 5 = Some c ->
   float_of_str c = None ->
   load_file float_of_str (Some (Line h :: good ++ bad :: tail)) w
   = (Exc ValueError, w)).
Proof.
  intros Hgood.
  assert (Hrows : forall e,
            read_rows float_of_str (bad :: tail) = Exc e ->
            read_rows float_of_str (good ++ bad :: tail) = Exc e).
  { intros e He. induction Hgood as [|l r ls rs Hwf _ IH]; [exact He|].
    destruct Hwf as (row & zip & time & c & f & -> & H1 & H4 & H5 & Hf & ->).
    simpl app. cbn [read_rows]. unfold parse_row.
    rewrite H1, H4, H5, Hf, IH. reflexivity. }
  assert (Hload : forall e,
            read_rows float_of_str (bad :: tail) = Exc e ->
            load_file float_of_str (Some (Line h :: good ++ bad :: tail)) w
            = (Exc e, w)).
  { intros e He. unfold load_file, bind, lift. now rewrite (Hrows e He). }
  split; [|split].
  - intros ->. now apply Hload.
  - intros row -> Hlen. apply Hload. simpl. unfold parse_row.
    destruct (nth_error row 1) eqn:E1; [|reflexivity].
    destruct (nth_error row 4) eqn:E4; [|reflexivity].
    destruct (nth_error row 5) eqn:E5; [|reflexivity].
    assert (nth_error row 5 <> None) by congruence.
    apply nth_error_Some in H. lia.
  - intros row c -> H5 Hf. apply Hload. simpl. unfold parse_row.
    assert (Hlen : 5 < List.length row)
      by (apply nth_error_Some; congruence).
    destruct (nth_error row 1) eqn:E1;
      [|apply nth_error_None in E1; lia].
    destruct (nth_error row 4) eqn:E4;
      [|apply nth_error_None in E4; lia].
    now rewrite H5, Hf.
Qed.

(** X4: what a successful load leaves in the object depends on the file
    only: loading the same file into any other object succeeds too and
    gives the same records and the same registries, every flag on, whatever
    records and flags that object had; its header is kept. *)
Theorem load_file_resets_filters
    (file : option (list csv_line)) (w1 w1' w2 : world) (r : pyobj) :
  load_file float_of_str file w1 = (Ret r, w1') ->
  exists w2',
    load_file float_of_str file w2 = (Ret PyNone, w2') /\
    _data (self w2') = _data (self w1') /\
    (forall c, labels_of (self w2') c = labels_of (self w1') c) /\
    _header (self w2') = _header (self w2).
Proof.
  intros H.
  destruct (load_file_Ret _ _ _ _ _ H)
    as (h & rest & data & -> & Hrows & Hne & _ & ->).
  exists (after_load w2 data).
  split; [now apply load_file_ok|].
  split; [reflexivity|]. split; [intros []; reflexivity | reflexivity].
Qed.

End LoadingProperties.

Lemma get_labels_after_load_witness :
  Sample.load (Some Sample.file) (mkWorld Sample.fresh "")
  = (Ret PyNone, mkWorld Sample.loaded ("3 lines loaded" ++ nl)) /\
  exists data,
    _data Sample.loaded = Some data /\
    forall c,
      get_labels c (mkWorld Sample.loaded ("3 lines loaded" ++ nl))
      = (Ret (first_occurrences (map (fun item => field item c) data)),
         mkWorld Sample.loaded ("3 lines loaded" ++ nl)).
Proof.
  assert (H : Sample.load (Some Sample.file) (mkWorld Sample.fresh "")
              = (Ret PyNone, mkWorld Sample.loaded ("3 lines loaded" ++ nl)))
    by (vm_compute; reflexivity).
  split; [exact H|].
  exact (get_labels_after_load Builtins.float_of_decimal _ _ _ _ H).
Defined.

Lemma load_file_first_bad_line_witness :
  Forall2 (well_formed Builtins.float_of_decimal)
    [Sample.row "10001" "Morning" "5.0"] [("10001", "Morning", 5%float)] /\
  Sample.load
    (Some [Line ["h"]; Sample.row "10001" "Morning" "5.0";
           Sample.row "10001" "Noon" "n/a"])
    (mkWorld Sample.zip_10002_off "")
  = (Exc ValueError, mkWorld Sample.zip_10002_off "").
Proof.
  assert (H : Forall2 (well_formed Builtins.float_of_decimal)
                [Sample.row "10001" "Morning" "5.0"]
                [("10001", "Morning", 5%float)]).
  { constructor; [|constructor].
    exists ["s"; "10001"; "0"; "0"; "Morning"; "5.0"],
      "10001", "Morning", "5.0", 5%float.
    repeat split. }
  split; [exact H|].
  exact (proj2 (proj2 (load_file_first_bad_line Builtins.float_of_decimal
                         ["h"] _ _ (Sample.row "10001" "Noon" "n/a") []
                         (mkWorld Sample.zip_10002_off "") H))
           _ "n/a" eq_refl eq_refl eq_refl).
Defined.

Lemma load_file_resets_filters_witness :
  Sample.load (Some Sample.file) (mkWorld Sample.fresh "")
  = (Ret PyNone, mkWorld Sample.loaded ("3 lines loaded" ++ nl)) /\
  exists w2',
    Sample.load (Some Sample.file) (mkWorld Sample.zip_10002_off "")
    = (Ret PyNone, w2') /\
    _data (self w2') = _data Sample.loaded /\
    (forall c, labels_of (self w2') c = labels_of Sample.loaded c) /\
    _header (self w2') = _header Sample.zip_10002_off.
Proof.
  assert (H : Sample.load (Some Sample.file) (mkWorld Sample.fresh "")
              = (Ret PyNone, mkWorld Sample.loaded ("3 lines loaded" ++ nl)))
    by (vm_compute; reflexivity).
  split; [exact H|].
  exact (load_file_resets_filters Builtins.float_of_decimal _ _ _
           (mkWorld Sample.zip_10002_off "") _ H).
Defined.

(* ===================================================================== *)
(** * Filters: what a toggle does to the active labels *)
(* ===================================================================== *)

Lemma is_on_set (d : Dict.t bool) (label k : string) (b : bool) :
  is_on (Dict.set d label b) k
  = if String.eqb k label then b else is_on d k.
Proof.
  unfold is_on. destruct (String.eqb_spec k label) as [->|Hne].
  - rewrite DictFacts.get_set_same. now destruct b.
  - now rewrite DictFacts.get_set_other.
Qed.

Lemma set_comm {V} (d : Dict.t V) (k1 k2 : string) (v1 v2 : V) :
  k1 <> k2 -> In k1 (Dict.keys d) -> In k2 (Dict.keys d) ->
  Dict.set (Dict.set d k1 v1) k2 v2 = Dict.set (Dict.set d k2 v2) k1 v1.
Proof.
  intros Hne. unfold Dict.keys.
  induction d as [|[k v] d IH]; simpl; [tauto|].
  intros H1 H2.
  destruct (String.eqb_spec k k1) as [E1|N1];
    destruct (String.eqb_spec k k2) as [E2|N2]; simpl;
    repeat match goal with
           | |- context [String.eqb ?a ?b] =>
               destruct (String.eqb_spec a b); try congruence
           end.
  f_equal. apply IH; [destruct H1 | destruct H2]; congruence.
Qed.

Lemma In_keys_get {V} (d : Dict.t V) (k : string) :
  In k (Dict.keys d) -> exists v, Dict.get d k = Some v.
Proof.
  intros Hin. destruct (Dict.get d k) as [v|] eqn:E; [eauto|].
  apply DictFacts.get_None_keys in E. contradiction.
Qed.

Lemma Loaded_set_labels ds data c d :
  Loaded ds data -> Loaded (set_labels ds c d) data.
Proof. intros [Hd Hne]. split; [now destruct c | exact Hne]. Qed.

(** X5: on a loaded object a toggle of a registered label keeps
    [get_labels] as it is and changes [get_active_labels] of that category
    at that label only: the label leaves the list if it was on and enters it
    at its place in the order of the keys if it was off; the active labels
    of the other category are untouched. *)
Theorem get_active_labels_after_toggle
    (ds : DataSet) (data : list record) (out : string)
    (c : Categories) (label : string) (v : bool) :
  Loaded ds data ->
  DataSet_wf ds ->
  Dict.get (labels_of ds c) label = Some v ->
  exists ds' keys active others,
    toggle_active_label c label (mkWorld ds out)
    = (Ret PyNone, mkWorld ds' out) /\
    get_labels c (mkWorld ds out) = (Ret keys, mkWorld ds out) /\
    get_active_labels c (mkWorld ds out) = (Ret active, mkWorld ds out) /\
    get_active_labels (opposite c) (mkWorld ds out)
    = (Ret others, mkWorld ds out) /\
    get_labels c (mkWorld ds' out) = (Ret keys, mkWorld ds' out) /\
    get_active_labels c (mkWorld ds' out)
    = (Ret (filter (fun k => if String.eqb k label then negb v
                             else existsb (String.eqb k) active) keys),
       mkWorld ds' out) /\
    get_active_labels (opposite c) (mkWorld ds' out)
    = (Ret others, mkWorld ds' out).
Proof.
  intros HL Hwf Hget.
  set (d := labels_of ds c) in *.
  set (ds' := set_labels ds c (Dict.set d label (negb v))).
  assert (HL' : Loaded ds' data) by now apply Loaded_set_labels.
  assert (Hd : Dict.wf d) by now apply DataSet_wf_labels.
  exists ds', (Dict.keys d),
    (map fst (filter (fun kv => snd kv) (Dict.items d))),
    (map fst (filter (fun kv => snd kv)
                (Dict.items (labels_of ds (opposite c))))).
  split.
  { rewrite (toggle_active_label_loaded _ data) by exact HL.
    simpl. fold d. now rewrite Hget. }
  split; [now rewrite (get_labels_loaded _ data) by exact HL|].
  split; [now rewrite (get_active_labels_loaded _ data) by exact HL|].
  split; [now rewrite (get_active_labels_loaded _ data) by exact HL|].
  split.
  { rewrite (get_labels_loaded _ data) by exact HL'. simpl self.
    unfold ds'. rewrite labels_of_set_labels.
    now rewrite (DictFacts.keys_set_present d label (negb v) v Hget). }
  split.
  - rewrite (get_active_labels_loaded _ data) by exact HL'. simpl self.
    unfold ds'. rewrite labels_of_set_labels.
    rewrite active_filter_keys by now apply DictFacts.wf_set.
    rewrite (DictFacts.keys_set_present d label (negb v) v Hget).
    do 2 f_equal. apply filter_ext_in. intros k Hk.
    rewrite is_on_set.
    destruct (String.eqb k label); [reflexivity|].
    rewrite (active_filter_keys d Hd).
    destruct (is_on d k) eqn:E.
    + symmetry. apply existsb_eqb_In. apply filter_In. auto.
    + destruct (existsb (String.eqb k) (filter (is_on d) (Dict.keys d)))
        eqn:E'; [|reflexivity].
      apply existsb_eqb_In, filter_In in E'. destruct E'. congruence.
  - rewrite (get_active_labels_loaded _ data) by exact HL'. simpl self.
    unfold ds'. now rewrite labels_of_set_labels_opposite.
Qed.

Lemma get_active_labels_after_toggle_witness :
  Loaded Sample.loaded Sample.data /\
  DataSet_wf Sample.loaded /\
  Dict.get (labels_of Sample.loaded ZIP_CODE) "10001" = Some true /\
  exists ds' keys active others,
    toggle_active_label ZIP_CODE "10001" (mkWorld Sample.loaded "")
    = (Ret PyNone, mkWorld ds' "") /\
    get_labels ZIP_CODE (mkWorld Sample.loaded "")
    = (Ret keys, mkWorld Sample.loaded "") /\
    get_active_labels ZIP_CODE (mkWorld Sample.loaded "")
    = (Ret active, mkWorld Sample.loaded "") /\
    get_active_labels (opposite ZIP_CODE) (mkWorld Sample.loaded "")
    = (Ret others, mkWorld Sample.loaded "") /\
    get_labels ZIP_CODE (mkWorld ds' "") = (Ret keys, mkWorld ds' "") /\
    get_active_labels ZIP_CODE (mkWorld ds' "")
    = (Ret (filter (fun k => if String.eqb k "10001" then negb true
                             else existsb (String.eqb k) active) keys),
       mkWorld ds' "") /\
    get_active_labels (opposite ZIP_CODE) (mkWorld ds' "")
    = (Ret others, mkWorld ds' "").
Proof.
  split; [exact Sample_loaded_Loaded|].
  split; [exact Sample_loaded_wf|].
  split; [reflexivity|].
  exact (get_active_labels_after_toggle Sample.loaded Sample.data ""
           ZIP_CODE "10001" true Sample_loaded_Loaded Sample_loaded_wf
           eq_refl).
Defined.

(** X6: on a loaded object two toggles of registered labels, of one category
    or of both, succeed in either order and leave the same object. *)
Theorem toggle_active_label_commute
    (ds : DataSet) (data : list record) (out : string)
    (c1 c2 : Categories) (l1 l2 : string) :
  Loaded ds data ->
  In l1 (Dict.keys (labels_of ds c1)) ->
  In l2 (Dict.keys (labels_of ds c2)) ->
  exists ds12,
    bind (toggle_active_label c1 l1) (fun _ => toggle_active_label c2 l2)
      (mkWorld ds out)
    = (Ret PyNone, mkWorld ds12 out) /\
    bind (toggle_active_label c2 l2) (fun _ => toggle_active_label c1 l1)
      (mkWorld ds out)
    = (Ret PyNone, mkWorld ds12 out).
Proof.
  intros HL H1 H2.
  destruct (In_keys_get _ _ H1) as [v1 G1].
  destruct (In_keys_get _ _ H2) as [v2 G2].
  assert (Hstep : forall c l v (ds0 : DataSet),
            Loaded ds0 data -> Dict.get (labels_of ds0 c) l = Some v ->
            toggle_active_label c l (mkWorld ds0 out)
            = (Ret PyNone,
               mkWorld (set_labels ds0 c
                          (Dict.set (labels_of ds0 c) l (negb v))) out)).
  { intros c l v ds0 HL0 G.
    rewrite (toggle_active_label_loaded _ data) by exact HL0.
    simpl. now rewrite G. }
  unfold bind. rewrite (Hstep c1 l1 v1 ds HL G1), (Hstep c2 l2 v2 ds HL G2).
  destruct (String.eqb_spec l1 l2) as [->|Hne].
  - (* the same label *)
    destruct c1, c2; simpl in *.
    + assert (v1 = v2) by congruence. subst v2.
      rewrite (Hstep ZIP_CODE l2 (negb v1)); simpl;
        [eauto | exact HL | apply DictFacts.get_set_same].
    + rewrite (Hstep TIME_OF_DAY l2 v2), (Hstep ZIP_CODE l2 v1); simpl;
        [eauto | exact HL | exact G1 | exact HL | exact G2].
    + rewrite (Hstep ZIP_CODE l2 v2), (Hstep TIME_OF_DAY l2 v1); simpl;
        [eauto | exact HL | exact G1 | exact HL | exact G2].
    + assert (v1 = v2) by congruence. subst v2.
      rewrite (Hstep TIME_OF_DAY l2 (negb v1)); simpl;
        [eauto | exact HL | apply DictFacts.get_set_same].
  - destruct c1, c2; simpl in *.
    + rewrite (Hstep ZIP_CODE l2 v2), (Hstep ZIP_CODE l1 v1); simpl;
        [ | exact HL | now rewrite DictFacts.get_set_other
          | exact HL | rewrite DictFacts.get_set_other; [exact G2|congruence]].
      rewrite (set_comm _ l1 l2) by assumption. eauto.
    + rewrite (Hstep TIME_OF_DAY l2 v2), (Hstep ZIP_CODE l1 v1); simpl;
        [eauto | exact HL | exact G1 | exact HL | exact G2].
    + rewrite (Hstep ZIP_CODE l2 v2), (Hstep TIME_OF_DAY l1 v1); simpl;
        [eauto | exact HL | exact G1 | exact HL | exact G2].
    + rewrite (Hstep TIME_OF_DAY l2 v2), (Hstep TIME_OF_DAY l1 v1); simpl;
        [ | exact HL | now rewrite DictFacts.get_set_other
          | exact HL | rewrite DictFacts.get_set_other; [exact G2|congruence]].
      rewrite (set_comm _ l1 l2) by assumption. eauto.
Qed.

Lemma toggle_active_label_commute_witness :
  Loaded Sample.loaded Sample.data /\
  exists ds12,
    bind (toggle_active_label ZIP_CODE "10002")
         (fun _ => toggle_active_label TIME_OF_DAY "Morning")
      (mkWorld Sample.loaded "")
    = (Ret PyNone, mkWorld ds12 "") /\
    bind (toggle_active_label TIME_OF_DAY "Morning")
         (fun _ => toggle_active_label ZIP_CODE "10002")
      (mkWorld Sample.loaded "")
    = (Ret PyNone, mkWorld ds12 "").
Proof.
  split; [exact Sample_loaded_Loaded|].
  apply (toggle_active_label_commute Sample.loaded Sample.data ""
           ZIP_CODE TIME_OF_DAY "10002" "Morning" Sample_loaded_Loaded);
    simpl; auto.
Defined.

(* ===================================================================== *)
(** * The two tables on a loaded object *)
(* ===================================================================== *)

Section Tables.

Variable format_2f : float -> string.

Lemma get_active_labels_active_list ds data c out :
  Loaded ds data ->
  get_active_labels c (mkWorld ds out) = (Ret (active_list ds c), mkWorld ds out).
Proof.
  intros HL. now rewrite (get_active_labels_loaded _ data) by exact HL.
Qed.

Lemma cross_table_statistics_selection ds data out z t :
  Loaded ds data ->
  _cross_table_statistics z t (mkWorld ds out)
  = (stats_of (cross_selection data z t), mkWorld ds out).
Proof. intros HL. now apply cross_table_statistics_loaded. Qed.

Lemma table_statistics_selection ds data out c label :
  Loaded ds data ->
  _table_statistics c label (mkWorld ds out)
  = (stats_of (table_selection ds data c label), mkWorld ds out).
Proof. intros HL. now apply table_statistics_loaded. Qed.

Lemma display_cross_table_loaded ds data out stat :
  Loaded ds data ->
  display_cross_table format_2f stat (mkWorld ds out)
  = (Ret PyNone,
     mkWorld ds
       (out ++ render_cross_table (cross_cell format_2f data stat)
                 (active_list ds ZIP_CODE)
                 (active_list ds TIME_OF_DAY))%string).
Proof.
  intros HL.
  pose proof (fun c o => get_active_labels_active_list ds data c o HL)
    as Hact.
  unfold display_cross_table.
  rewrite (bind_Ret _ _ _ _ _
             (check_not_empty_loaded (mkWorld ds out) data HL)).
  unfold print at 1 2. unfold bind at 1 2. simpl.
  rewrite (bind_Ret _ _ _ _ _ (Hact TIME_OF_DAY _)).
  erewrite bind_Ret.
  2:{ apply for_each_prints with (text := rjust 8). reflexivity. }
  unfold print at 1. unfold bind at 1. simpl.
  rewrite (bind_Ret _ _ _ _ _ (Hact ZIP_CODE _)).
  erewrite bind_Ret.
  2:{ apply for_each_prints
        with (text := fun j =>
                (ljust 7 j
                 ++ join (map (cross_cell format_2f data stat j)
                            (active_list ds TIME_OF_DAY))
                 ++ nl)%string).
      intros j o _.
      unfold print at 1. unfold bind at 1. simpl.
      rewrite (bind_Ret _ _ _ _ _ (Hact TIME_OF_DAY _)).
      erewrite bind_Ret.
      2:{ apply for_each_prints
            with (text := cross_cell format_2f data stat j).
          intros k o' _. now apply cross_table_cell. }
      unfold print, ret. simpl. now rewrite !append_assoc. }
  unfold ret, render_cross_table. now rewrite !append_assoc.
Qed.

(** One row of the field table: what the [try] statement prints. *)
Lemma field_table_row ds data rows item out :
  Loaded ds data ->
  try_except
    (statistics <- _table_statistics rows item ;;
     for_each [fst (fst statistics); snd (fst statistics); snd statistics]
       (fun statistic => print (rjust 8 (format_2f statistic))))
    NoMatchingItems
    (print (rjust 8 "N/A" ++ rjust 8 "N/A" ++ rjust 8 "N/A"))
    (mkWorld ds out)
  = (Ret tt, mkWorld ds (out ++ field_row format_2f ds data rows item)%string).
Proof.
  intros HL. unfold try_except, bind, field_row.
  rewrite (table_statistics_selection ds data) by exact HL.
  destruct (stats_of _) as [t|e] eqn:E.
  - simpl. unfold bind, print, ret. simpl.
    now rewrite !append_assoc.
  - apply stats_of_Exc in E. destruct E as [_ ->]. reflexivity.
Qed.

Lemma display_field_table_loaded ds data out rows :
  Loaded ds data ->
  display_field_table format_2f rows (mkWorld ds out)
  = (Ret PyNone,
     mkWorld ds
       (out ++ render_field_table (field_row format_2f ds data rows)
                 (active_list ds (opposite rows))
                 (active_list ds rows))%string).
Proof.
  intros HL.
  pose proof (fun c o => get_active_labels_active_list ds data c o HL)
    as Hact.
  unfold display_field_table.
  rewrite alternate_category_opposite.
  rewrite (bind_Ret _ _ _ _ _
             (check_not_empty_loaded (mkWorld ds out) data HL)).
  unfold print at 1 2 3. unfold bind at 1 2 3. cbn [self stdout].
  rewrite (bind_Ret _ _ _ _ _ (Hact (opposite rows) _)).
  erewrite bind_Ret.
  2:{ apply for_each_prints
        with (text := fun label => ("- " ++ label ++ nl)%string).
      reflexivity. }
  unfold print at 1. unfold bind at 1. cbn [self stdout].
  rewrite (bind_Ret _ _ _ _ _ (Hact rows _)).
  erewrite bind_Ret.
  2:{ apply for_each_prints
        with (text := fun item =>
                (ljust 7 item ++ field_row format_2f ds data rows item
                 ++ nl)%string).
      intros item o _.
      unfold print at 1. unfold bind at 1. cbn [self stdout].
      rewrite (bind_Ret _ _ _ _ _ (field_table_row ds data rows item _ HL)).
      unfold print. cbn [self stdout]. now rewrite !append_assoc. }
  unfold ret, render_field_table. cbn [self stdout]. now rewrite !append_assoc.
Qed.

(** X7: on a loaded object [display_field_table] returns normally, leaves
    the object as it is and prints: a blank line, the criteria sentence, a
    blank line, one "- label" line per active label of the other category,
    the column titles, and one line per active label of the row category
    made of the label on 7 columns and either the three statistics of
    [_table_statistics], each with two decimals on 8 columns, or three
    times "N/A" when that call raises [NoMatchingItems]. *)
Theorem display_field_table_renders
    (ds : DataSet) (data : list record) (out : string) (rows : Categories) :
  Loaded ds data ->
  exists others items row,
    get_active_labels (opposite rows) (mkWorld ds out)
    = (Ret others, mkWorld ds out) /\
    get_active_labels rows (mkWorld ds out) = (Ret items, mkWorld ds out) /\
    display_field_table format_2f rows (mkWorld ds out)
    = (Ret PyNone,
       mkWorld ds (out ++ render_field_table row others items)%string) /\
    forall item,
      (forall t,
         _table_statistics rows item (mkWorld ds out)
         = (Ret t, mkWorld ds out) ->
         row item
         = (rjust 8 (format_2f (fst (fst t)))
            ++ rjust 8 (format_2f (snd (fst t)))
            ++ rjust 8 (format_2f (snd t)))%string) /\
      (_table_statistics rows item (mkWorld ds out)
       = (Exc NoMatchingItems, mkWorld ds out) ->
       row item = "     N/A     N/A     N/A").
Proof.
  intros HL.
  exists (active_list ds (opposite rows)), (active_list ds rows),
    (field_row format_2f ds data rows).
  split; [now apply (get_active_labels_active_list ds data)|].
  split; [now apply (get_active_labels_active_list ds data)|].
  split; [now apply display_field_table_loaded|].
  intros item. unfold field_row.
  rewrite (table_statistics_selection ds data) by exact HL.
  split.
  - intros t [= ->]. reflexivity.
  - intros [= ->]. reflexivity.
Qed.

End Tables.

Lemma display_field_table_renders_witness :
  Loaded Sample.zip_10002_off Sample.data /\
  exists others items row,
    get_active_labels (opposite TIME_OF_DAY) (mkWorld Sample.zip_10002_off "")
    = (Ret others, mkWorld Sample.zip_10002_off "") /\
    get_active_labels TIME_OF_DAY (mkWorld Sample.zip_10002_off "")
    = (Ret items, mkWorld Sample.zip_10002_off "") /\
    display_field_table Builtins.fmt_2f TIME_OF_DAY
      (mkWorld Sample.zip_10002_off "")
    = (Ret PyNone,
       mkWorld Sample.zip_10002_off
         ("" ++ render_field_table row others items)%string) /\
    forall item,
      (forall t,
         _table_statistics TIME_OF_DAY item (mkWorld Sample.zip_10002_off "")
         = (Ret t, mkWorld Sample.zip_10002_off "") ->
         row item
         = (rjust 8 (Builtins.fmt_2f (fst (fst t)))
            ++ rjust 8 (Builtins.fmt_2f (snd (fst t)))
            ++ rjust 8 (Builtins.fmt_2f (snd t)))%string) /\
      (_table_statistics TIME_OF_DAY item (mkWorld Sample.zip_10002_off "")
       = (Exc NoMatchingItems, mkWorld Sample.zip_10002_off "") ->
       row item = "     N/A     N/A     N/A").
Proof.
  assert (HL : Loaded Sample.zip_10002_off Sample.data)
    by (split; [reflexivity | discriminate]).
  split; [exact HL|].
  exact (display_field_table_renders Builtins.fmt_2f Sample.zip_10002_off
           Sample.data "" TIME_OF_DAY HL).
Defined.

(** With the zip label "10002" off, the evening row has nothing left. *)
Example display_field_table_filtered :
  display_field_table Builtins.fmt_2f TIME_OF_DAY
    (mkWorld Sample.zip_10002_off "")
  = (Ret PyNone,
     mkWorld Sample.zip_10002_off
       (nl ++ "The following data are from sensors matching these criteria:"
           ++ nl ++ nl
           ++ "- 10001" ++ nl
           ++ "        Minimum Average Maximum " ++ nl
           ++ "Morning    5.00    6.00    7.00" ++ nl
           ++ "Evening     N/A     N/A     N/A" ++ nl)).
Proof. vm_compute. reflexivity. Qed.

(* ===================================================================== *)
(** * Statistics: where the numbers come from *)
(* ===================================================================== *)

Lemma stats_of_Ret sel mn av mx :
  stats_of sel = Ret (mn, av, mx) -> In mn sel /\ In mx sel.
Proof.
  destruct sel as [|x xs]; simpl; [discriminate|].
  intros [= <- _ <-]. split; [apply py_min_In | apply py_max_In].
Qed.

Lemma stats_of_nonempty sel x :
  In x sel -> exists t, stats_of sel = Ret t.
Proof. destruct sel; simpl; [tauto | eauto]. Qed.

(** X8: minimum and maximum returned by the two statistics are
    concentrations of records of the selection: of a record with both labels
    for [_cross_table_statistics], of a record with the row label whose
    other label is listed by [get_active_labels] for [_table_statistics]. *)
Theorem statistics_are_readings
    (ds : DataSet) (data : list record) (out : string) :
  Loaded ds data ->
  (forall z t mn av mx,
     _cross_table_statistics z t (mkWorld ds out)
     = (Ret (mn, av, mx), mkWorld ds out) ->
     (exists r, In r data /\ zip_of r = z /\ time_of r = t /\ conc_of r = mn)
     /\
     (exists r, In r data /\ zip_of r = z /\ time_of r = t /\ conc_of r = mx))
  /\
  (forall c label mn av mx,
     _table_statistics c label (mkWorld ds out)
     = (Ret (mn, av, mx), mkWorld ds out) ->
     exists actives,
       get_active_labels (opposite c) (mkWorld ds out)
       = (Ret actives, mkWorld ds out) /\
       (exists r, In r data /\ field r c = label /\
                  In (field r (opposite c)) actives /\ conc_of r = mn) /\
       (exists r, In r data /\ field r c = label /\
                  In (field r (opposite c)) actives /\ conc_of r = mx)).
Proof.
  intros HL. split.
  - intros z t mn av mx H.
    rewrite (cross_table_statistics_selection ds data) in H by exact HL.
    injection H as H. apply stats_of_Ret in H. destruct H as [Hmn Hmx].
    unfold cross_selection in *.
    apply in_map_iff in Hmn. destruct Hmn as (r1 & C1 & F1).
    apply in_map_iff in Hmx. destruct Hmx as (r2 & C2 & F2).
    apply filter_In in F1. destruct F1 as [I1 P1].
    apply filter_In in F2. destruct F2 as [I2 P2].
    apply Bool.andb_true_iff in P1, P2.
    rewrite !String.eqb_eq in P1, P2.
    split; [exists r1 | exists r2]; tauto.
  - intros c label mn av mx H.
    rewrite (table_statistics_selection ds data) in H by exact HL.
    injection H as H. apply stats_of_Ret in H. destruct H as [Hmn Hmx].
    exists (active_list ds (opposite c)).
    split; [now apply (get_active_labels_active_list ds data)|].
    unfold table_selection in *.
    apply in_map_iff in Hmn. destruct Hmn as (r1 & C1 & F1).
    apply in_map_iff in Hmx. destruct Hmx as (r2 & C2 & F2).
    apply filter_In in F1. destruct F1 as [I1 P1].
    apply filter_In in F2. destruct F2 as [I2 P2].
    apply Bool.andb_true_iff in P1, P2.
    rewrite String.eqb_eq, existsb_eqb_In in P1, P2.
    split; [exists r1 | exists r2]; tauto.
Qed.

Lemma statistics_are_readings_witness :
  Loaded Sample.loaded Sample.data /\
  ((exists r, In r Sample.data /\ zip_of r = "10001" /\
              time_of r = "Morning" /\ conc_of r = 5%float) /\
   (exists r, In r Sample.data /\ zip_of r = "10001" /\
              time_of r = "Morning" /\ conc_of r = 7%float)).
Proof.
  split; [exact Sample_loaded_Loaded|].
  exact (proj1 (statistics_are_readings Sample.loaded Sample.data ""
                  Sample_loaded_Loaded)
           "10001" "Morning" 5%float 6%float 7%float eq_refl).
Defined.

(** X9: on a loaded object whose registries agree with the records, a
    registered label has table statistics as long as no label of the other
    category is switched off; so the field table printed right after a load
    has no "N/A" row. *)
Theorem table_statistics_defined
    (ds : DataSet) (data : list record) (out : string)
    (c : Categories) (label : string) :
  Loaded ds data ->
  Consistent ds ->
  (forall k, In k (Dict.keys (labels_of ds (opposite c))) ->
             active (labels_of ds (opposite c)) k) ->
  In label (Dict.keys (labels_of ds c)) ->
  exists t, _table_statistics c label (mkWorld ds out) = (Ret t, mkWorld ds out).
Proof.
  intros HL [Hwf Hkeys] Hon Hin.
  rewrite (table_statistics_selection ds data) by exact HL.
  apply (Hkeys data HL) in Hin. destruct Hin as (item & Hitem & Hf).
  destruct (stats_of_nonempty (table_selection ds data c label)
              (conc_of item)) as [t Ht]; [|rewrite Ht; eauto].
  unfold table_selection. apply in_map. apply filter_In.
  split; [exact Hitem|].
  apply Bool.andb_true_iff. split; [now apply String.eqb_eq|].
  apply existsb_eqb_In. unfold active_list.
  apply DictFacts.active_iff_get; [now apply DataSet_wf_labels|].
  apply Hon. apply (Hkeys data HL). eauto.
Qed.

(* ===================================================================== *)
(** * The invariant of the registries *)
(* ===================================================================== *)

Lemma after_load_Consistent (w : world) (data : list record) :
  Consistent (self (after_load w data)).
Proof.
  split.
  - split; apply DictFacts.comprehension_wf.
  - intros data' [Hd _] c k. simpl in Hd. injection Hd as <-.
    assert (Hc : labels_of (self (after_load w data)) c
                 = Dict.comprehension
                     (map (fun i => (field i c, true)) data))
      by now destruct c.
    rewrite Hc, DictFacts.comprehension_keys, map_map. simpl.
    rewrite in_map_iff. split; intros (i & A & B); exists i; auto.
Qed.

Lemma Sample_loaded_Consistent : Consistent Sample.loaded.
Proof. exact (after_load_Consistent (mkWorld Sample.fresh "") Sample.data). Qed.

Lemma table_statistics_defined_witness :
  Loaded Sample.loaded Sample.data /\
  Consistent Sample.loaded /\
  In "Evening" (Dict.keys (labels_of Sample.loaded TIME_OF_DAY)) /\
  exists t,
    _table_statistics TIME_OF_DAY "Evening" (mkWorld Sample.loaded "")
    = (Ret t, mkWorld Sample.loaded "").
Proof.
  split; [exact Sample_loaded_Loaded|].
  split; [exact Sample_loaded_Consistent|].
  assert (Hin : In "Evening" (Dict.keys (labels_of Sample.loaded TIME_OF_DAY)))
    by (simpl; auto).
  split; [exact Hin|].
  apply (table_statistics_defined Sample.loaded Sample.data ""
           TIME_OF_DAY "Evening" Sample_loaded_Loaded Sample_loaded_Consistent);
    [|exact Hin].
  intros k [<-|[<-|[]]]; reflexivity.
Defined.

Section Invariant.

Variable float_of_str : string -> option float.

(** The three ways a load can end. *)
Lemma load_file_cases file w o w' :
  load_file float_of_str file w = (o, w') ->
  (exists data, data <> [] /\ o = Ret PyNone /\ w' = after_load w data) \/
  (o = Exc EmptyDatasetError /\
   w' = mkWorld (set_data (self w) (Some [])) (stdout w)) \/
  (exists e, o = Exc e /\ w' = w).
Proof.
  unfold load_file.
  destruct file as [[|[h|] rest]|];
    try (intros [= <- <-]; right; right; eauto).
  unfold bind, lift.
  destruct (read_rows float_of_str rest) as [data|e];
    [|intros [= <- <-]; right; right; eauto].
  destruct data as [|r data]; simpl.
  - intros [= <- <-]. right. left. auto.
  - intros [= <- <-]. left. exists (r :: data).
    split; [discriminate | auto].
Qed.

(** The ways a toggle can end. *)
Lemma toggle_active_label_cases c label w o w' :
  toggle_active_label c label w = (o, w') ->
  (exists e, o = Exc e /\ w' = w) \/
  (exists v, Dict.get (labels_of (self w) c) label = Some v /\
             o = Ret PyNone /\
             w' = mkWorld (set_labels (self w) c
                             (Dict.set (labels_of (self w) c) label (negb v)))
                          (stdout w)).
Proof.
  destruct (state_cases (self w)) as [Hf|[data HL]].
  - unfold toggle_active_label, bind.
    rewrite (check_not_empty_falsy w Hf). intros [= <- <-]. left. eauto.
  - rewrite (toggle_active_label_loaded _ data) by exact HL.
    destruct (Dict.get (labels_of (self w) c) label) as [v|].
    + intros [= <- <-]. right. eauto.
    + intros [= <- <-]. left. eauto.
Qed.

Lemma header_setter_cases v w o w' :
  header_setter v w = (o, w') ->
  (exists e, o = Exc e /\ w' = w) \/
  (exists s, v = PyStr s /\ o = Ret PyNone /\
             w' = mkWorld (set_header_attr (self w) s) (stdout w)).
Proof.
  unfold header_setter.
  destruct v as [| | | |s]; try (intros [= <- <-]; left; eauto).
  destruct (Nat.ltb 30 (py_len s)); intros [= <- <-]; [left | right]; eauto.
Qed.

Lemma Consistent_set_present ds c label v0 v :
  Consistent ds ->
  Dict.get (labels_of ds c) label = Some v0 ->
  Consistent (set_labels ds c (Dict.set (labels_of ds c) label v)).
Proof.
  intros [[Hz Ht] Hkeys] Hget.
  assert (Hk : forall c',
            Dict.keys (labels_of
                         (set_labels ds c
                            (Dict.set (labels_of ds c) label v)) c')
            = Dict.keys (labels_of ds c')).
  { intros c'. destruct c, c'; simpl in *; try reflexivity;
      now apply DictFacts.keys_set_present with (v0 := v0). }
  split.
  - split; unfold Dict.wf.
    + exact (eq_ind_r (fun l => NoDup l) Hz (Hk ZIP_CODE)).
    + exact (eq_ind_r (fun l => NoDup l) Ht (Hk TIME_OF_DAY)).
  - intros data [Hd Hne] c' k. rewrite Hk.
    apply Hkeys. split; [|exact Hne]. now destruct c.
Qed.

(** X10: the methods that write to the object keep the registries
    consistent, however they end: after [load_file], [toggle_active_label]
    or the header setter, returning or raising, the keys of both registries
    are unique and, if records are loaded, they are exactly the values of
    the two fields in the records. *)
Theorem methods_preserve_Consistent (w : world) :
  Consistent (self w) ->
  (forall file o w',
     load_file float_of_str file w = (o, w') -> Consistent (self w')) /\
  (forall c label o w',
     toggle_active_label c label w = (o, w') -> Consistent (self w')) /\
  (forall v o w',
     header_setter v w = (o, w') -> Consistent (self w')).
Proof.
  intros HC. split; [|split].
  - intros file o w' H.
    destruct (load_file_cases _ _ _ _ H)
      as [(data & _ & _ & ->)|[(_ & ->)|(e & _ & ->)]].
    + apply after_load_Consistent.
    + destruct HC as [Hwf _]. split; [exact Hwf|].
      intros data [Hd Hne]. simpl in Hd. injection Hd as <-.
      now destruct Hne.
    + exact HC.
  - intros c label o w' H.
    destruct (toggle_active_label_cases _ _ _ _ _ H)
      as [(e & _ & ->)|(v & Hget & _ & ->)]; [exact HC|].
    simpl. now apply Consistent_set_present with (v0 := v).
  - intros v o w' H.
    destruct (header_setter_cases _ _ _ _ H)
      as [(e & _ & ->)|(s & _ & _ & ->)]; [exact HC|].
    destruct HC as [Hwf Hkeys]. split; [exact Hwf|].
    intros data HL. now apply Hkeys.
Qed.

End Invariant.

Lemma methods_preserve_Consistent_witness :
  Consistent (self (mkWorld Sample.loaded "")) /\
  Consistent
    (self (snd (toggle_active_label ZIP_CODE "10002"
                  (mkWorld Sample.loaded "")))).
Proof.
  split; [exact Sample_loaded_Consistent|].
  apply (proj1 (proj2 (methods_preserve_Consistent
                         Builtins.float_of_decimal
                         (mkWorld Sample.loaded "")
                         Sample_loaded_Consistent))
           ZIP_CODE "10002"
           (fst (toggle_active_label ZIP_CODE "10002"
                   (mkWorld Sample.loaded "")))).
  reflexivity.
Defined.

(** A new object has consistent registries. *)
Lemma DataSet_init_Consistent (header : pyobj) (ds : DataSet) :
  DataSet_init header = Ret ds -> Consistent ds.
Proof.
  intros H. split; [now apply (DataSet_init_wf header)|].
  unfold DataSet_init, header_setter in H.
  destruct header as [| | | |s]; try discriminate.
  destruct (Nat.ltb 30 (py_len s)); [discriminate|].
  injection H as <-. intros data [Hd _]. discriminate.
Qed.

(* ===================================================================== *)
(** * What the queries leave alone; the constructor *)
(* ===================================================================== *)

(** X11: the four queries never write: [get_labels], [get_active_labels]
    and the two statistics end in the world they started in, the statistics
    raising nothing but [EmptyDatasetError] and [NoMatchingItems]; the two
    table printers never change the object and either return [None] or raise
    [EmptyDatasetError] before printing anything. *)
Theorem queries_read_only (format_2f : float -> string) (w : world) :
  (forall c o w', get_labels c w = (o, w') -> w' = w) /\
  (forall c o w', get_active_labels c w = (o, w') -> w' = w) /\
  (forall z t o w',
     _cross_table_statistics z t w = (o, w') ->
     w' = w /\
     forall e, o = Exc e -> e = EmptyDatasetError \/ e = NoMatchingItems) /\
  (forall c label o w',
     _table_statistics c label w = (o, w') ->
     w' = w /\
     forall e, o = Exc e -> e = EmptyDatasetError \/ e = NoMatchingItems) /\
  (forall stat o w',
     display_cross_table format_2f stat w = (o, w') ->
     self w' = self w /\
     (o = Ret PyNone \/ (o = Exc EmptyDatasetError /\ w' = w))) /\
  (forall rows o w',
     display_field_table format_2f rows w = (o, w') ->
     self w' = self w /\
     (o = Ret PyNone \/ (o = Exc EmptyDatasetError /\ w' = w))).
Proof.
  destruct (state_cases (self w)) as [Hf|[data HL]].
  - destruct (falsy_every_query_fails format_2f w Hf)
      as (H1 & H2 & _ & H4 & H5 & H6 & H7).
    repeat split; intros;
      rewrite ?H1, ?H2, ?H4, ?H5, ?H6, ?H7 in *;
      try congruence; auto.
    + left. congruence.
    + left. congruence.
    + right. split; congruence.
    + right. split; congruence.
  - destruct w as [ds out]. simpl in HL.
    split; [|split; [|split; [|split; [|split]]]].
    + intros c o w'. rewrite (get_labels_loaded _ data) by exact HL.
      congruence.
    + intros c o w'. rewrite (get_active_labels_loaded _ data) by exact HL.
      congruence.
    + intros z t o w'.
      rewrite (cross_table_statistics_selection ds data) by exact HL.
      intros [= <- <-]. split; [reflexivity|].
      intros e He. apply stats_of_Exc in He. tauto.
    + intros c label o w'.
      rewrite (table_statistics_selection ds data) by exact HL.
      intros [= <- <-]. split; [reflexivity|].
      intros e He. apply stats_of_Exc in He. tauto.
    + intros stat o w'.
      rewrite (display_cross_table_loaded format_2f ds data) by exact HL.
      intros [= <- <-]. auto.
    + intros rows o w'.
      rewrite (display_field_table_loaded format_2f ds data) by exact HL.
      intros [= <- <-]. auto.
Qed.

(** X12: the constructor accepts exactly the strings of at most 30
    characters; the object it returns has that header, empty registries and
    no data, so that every query on it raises [EmptyDatasetError]; a longer
    string gives [ValueError] and any other value [TypeError]. *)
Theorem DataSet_init_gives_empty_object
    (format_2f : float -> string) (header : pyobj) :
  match DataSet_init header with
  | Ret ds =>
      exists s,
        header = PyStr s /\ py_len s <= 30 /\
        ds = mkDataSet Dict.empty Dict.empty None (Some s) /\
        forall out, every_query_fails format_2f (mkWorld ds out)
  | Exc e =>
      (e = ValueError /\ exists s, header = PyStr s /\ 30 < py_len s) \/
      (e = TypeError /\ forall s, header <> PyStr s)
  end.
Proof.
  unfold DataSet_init, header_setter.
  destruct header as [| | | |s]; simpl;
    try (right; split; [reflexivity | discriminate]).
  destruct (Nat.ltb_spec 30 (py_len s)); simpl.
  - left. split; [reflexivity|]. eauto.
  - exists s. repeat split; try lia.
    all: apply falsy_every_query_fails; reflexivity.
Qed.

(* ===================================================================== *)
(** * The console: rules for running and for reasoning *)
(* ===================================================================== *)


Lemma io_bind_Exc {A B} (c : IO A) (k : A -> IO B) s e s' :
  c s = (IoExc e, s') -> io_bind c k s = (IoExc e, s').
Proof. intros H. unfold io_bind. now rewrite H. Qed.


Lemma liftM_Exc {A} (c : M A) s e w :
  c (cworld s) = (Exc e, w) ->
  liftM c s = (IoExc (Raised e), mkConsole w (stdin s)).
Proof. intros H. unfold liftM. now rewrite H. Qed.

Lemma print_menu_eq (w : world) :
  print_menu w
  = (Ret tt,
     mkWorld (self w)
       (stdout w ++ "Main Menu" ++ nl
        ++ join (map (fun kv => str_of_nat (fst kv) ++ ": " ++ snd kv ++ nl)
                   menu_options))%string).
Proof.
  destruct w as [ds out]. unfold print_menu.
  unfold print at 1. unfold bind at 1. cbn [self stdout].
  rewrite (for_each_prints menu_options _
             (fun kv => (str_of_nat (fst kv) ++ ": " ++ snd kv ++ nl)%string)
             ds) by reflexivity.
  now rewrite !append_assoc.
Qed.

Section Bounds.

Context {A B : Type}.

Lemma bounded_ret (a : A) s : bounded (io_ret a) s.
Proof. split; [discriminate | apply le_n]. Qed.

Lemma bounded_liftM (c : M A) s : bounded (liftM c) s.
Proof.
  unfold bounded, liftM.
  destruct (c (cworld s)) as [[a|e] w]; split; simpl;
    try discriminate; apply le_n.
Qed.

Lemma bounded_bind (c : IO A) (k : A -> IO B) s :
  bounded c s ->
  (forall a s', c s = (IoRet a, s') -> bounded (k a) s') ->
  bounded (io_bind c k) s.
Proof.
  unfold bounded, io_bind. intros [Hf Hl] Hk.
  destruct (c s) as [[a|e|] s'] eqn:E; simpl in *.
  - destruct (Hk a s' eq_refl) as [Hf' Hl']. split; [exact Hf' | lia].
  - split; [discriminate | exact Hl].
  - now destruct Hf.
Qed.

Lemma progress_bounded (c : IO A) s : progress c s -> bounded c s.
Proof. now intros [H _]. Qed.

Lemma progress_bind_l (c : IO A) (k : A -> IO B) s :
  progress c s ->
  (forall a s', c s = (IoRet a, s') -> bounded (k a) s') ->
  progress (io_bind c k) s.
Proof.
  unfold progress, bounded, io_bind. intros [[Hf Hl] Hp] Hk.
  destruct (c s) as [[a|e|] s'] eqn:E; simpl in *.
  - destruct (Hk a s' eq_refl) as [Hf' Hl'].
    specialize (Hp a eq_refl).
    split; [split; [exact Hf' | lia]|]. intros; lia.
  - split; [split; [discriminate | exact Hl]|]. discriminate.
  - now destruct Hf.
Qed.

Lemma progress_bind_r (c : IO A) (k : A -> IO B) s :
  bounded c s ->
  (forall a s', c s = (IoRet a, s') -> progress (k a) s') ->
  progress (io_bind c k) s.
Proof.
  unfold progress, bounded, io_bind. intros [Hf Hl] Hk.
  destruct (c s) as [[a|e|] s'] eqn:E; simpl in *.
  - destruct (Hk a s' eq_refl) as [[Hf' Hl'] Hp].
    split; [split; [exact Hf' | lia]|].
    intros b Hb. specialize (Hp b Hb). lia.
  - split; [split; [discriminate | exact Hl]|]. discriminate.
  - now destruct Hf.
Qed.

Lemma bounded_try (body handler : IO A) (e : exn) s :
  bounded body s ->
  (forall s', List.length (stdin s') <= List.length (stdin s) ->
              bounded handler s') ->
  bounded (io_try body e handler) s.
Proof.
  unfold bounded, io_try. intros [Hf Hl] Hh.
  destruct (body s) as [[a|[e'| |]|] s'] eqn:E; simpl in *;
    try (split; [discriminate || exact Hf | exact Hl]).
  destruct (exn_eqb e' e).
  - destruct (Hh s' Hl) as [Hf' Hl']. split; [exact Hf' | lia].
  - split; [discriminate | exact Hl].
Qed.

End Bounds.

Lemma progress_input (prompt : string) s : progress (input prompt) s.
Proof.
  unfold progress, bounded, input.
  destruct (stdin s) as [|line rest]; simpl.
  - split; [split; [discriminate | apply le_n]|]. discriminate.
  - split; [split; [discriminate | lia]|]. intros; lia.
Qed.

Lemma bounded_header_getter s : bounded header_getter s.
Proof.
  unfold bounded, header_getter.
  destruct (_header (self (cworld s))); split; simpl;
    try discriminate; apply le_n.
Qed.

(** A loop whose turns each read a line ends before its fuel does, when the
    fuel exceeds the number of lines. *)
Lemma while_true_bounded (body : IO ctl) (N : nat) :
  (forall s, List.length (stdin s) < N -> progress body s) ->
  forall fuel s,
    List.length (stdin s) < fuel -> List.length (stdin s) < N ->
    bounded (while_true fuel body) s.
Proof.
  intros Hbody. induction fuel as [|fuel IH]; intros s Hfuel HN; [lia|].
  destruct (Hbody s HN) as [[Hf Hl] Hp].
  unfold bounded in *. simpl.
  destruct (body s) as [[[|]|e|] s'] eqn:E; simpl in *.
  - specialize (Hp Continue eq_refl).
    destruct (IH s') as [Hf' Hl']; [lia | lia |]. split; [exact Hf' | lia].
  - split; [discriminate | exact Hl].
  - split; [discriminate | exact Hl].
  - now destruct Hf.
Qed.

Section Triples.

Context {A B : Type}.

Lemma triple_ret (a : A) (Q : A -> DataSet -> Prop) R :
  triple (Q a) (io_ret a) Q R.
Proof. intros s H. exact H. Qed.

Lemma triple_bind (c : IO A) (k : A -> IO B) P Q' Q R :
  triple P c Q' R ->
  (forall a, triple (Q' a) (k a) Q R) ->
  triple P (io_bind c k) Q R.
Proof.
  intros Hc Hk s HP. specialize (Hc s HP). unfold io_bind.
  destruct (c s) as [[a|e|] s']; [apply (Hk a s' Hc) | exact Hc | exact I].
Qed.

Lemma triple_conseq (c : IO A) (P P' : DataSet -> Prop) Q Q' R R' :
  triple P' c Q' R' ->
  (forall ds, P ds -> P' ds) ->
  (forall a ds, Q' a ds -> Q a ds) ->
  (forall e ds, R' e ds -> R e ds) ->
  triple P c Q R.
Proof.
  intros Hc HP HQ HR s H. specialize (Hc s (HP _ H)).
  destruct (c s) as [[a|e|] s']; auto.
Qed.

Lemma triple_liftM (c : M A) P Q R :
  (forall w, P (self w) ->
     match c w with
     | (Ret a, w') => Q a (self w')
     | (Exc e, w') => R (Raised e) (self w')
     end) ->
  triple P (liftM c) Q R.
Proof.
  intros Hc s HP. specialize (Hc (cworld s) HP). unfold liftM.
  destruct (c (cworld s)) as [[a|e] w']; exact Hc.
Qed.

Lemma triple_try (body handler : IO A) (e : exn) P Q R R' :
  triple P body Q R' ->
  (forall e' ds, e' <> Raised e -> R' e' ds -> R e' ds) ->
  triple (R' (Raised e)) handler Q R ->
  triple P (io_try body e handler) Q R.
Proof.
  intros Hb Hother Hh s HP. specialize (Hb s HP). unfold io_try.
  destruct (body s) as [[a|[e'| |]|] s'] eqn:E; try exact Hb;
    try (apply Hother; [discriminate | exact Hb]).
  destruct e', e; simpl;
    try (apply Hother; [discriminate | exact Hb]);
    apply (Hh s' Hb).
Qed.

End Triples.

Lemma triple_print {R} (text : string) (P : DataSet -> Prop) :
  triple P (liftM (print text)) (fun _ => P) R.
Proof. apply triple_liftM. intros w H. exact H. Qed.

Lemma triple_input {R : cli_exn -> DataSet -> Prop} (prompt : string)
    (P : DataSet -> Prop) :
  (forall ds, P ds -> R EOFError ds) ->
  triple P (input prompt) (fun _ => P) R.
Proof.
  intros HR s H. unfold input.
  destruct (stdin s); simpl; [now apply HR | exact H].
Qed.

Lemma triple_while (body : IO ctl) (Inv Q : DataSet -> Prop) R :
  triple Inv body
    (fun c ds => match c with Continue => Inv ds | Break => Q ds end) R ->
  forall fuel, triple Inv (while_true fuel body) (fun _ => Q) R.
Proof.
  intros Hb. induction fuel as [|fuel IH]; intros s HI; simpl; [exact I|].
  specialize (Hb s HI).
  destruct (body s) as [[[|]|e|] s']; try exact Hb; try exact I.
  apply (IH s' Hb).
Qed.

Lemma bounded_len {A} (c : IO A) s o s' :
  bounded c s -> c s = (o, s') ->
  List.length (stdin s') <= List.length (stdin s).
Proof. intros [_ H] E. now rewrite E in H. Qed.

Lemma liftM_stdin {A} (c : M A) s o s' :
  liftM c s = (o, s') -> stdin s' = stdin s.
Proof.
  unfold liftM. destruct (c (cworld s)) as [[a|e] w]; now intros [= <- <-].
Qed.

Lemma map_snd_enumerate {A} (l : list A) (n : nat) :
  map snd (enumerate n l) = l.
Proof.
  revert n. induction l as [|x l IH]; intros n; simpl; [reflexivity|].
  now rewrite IH.
Qed.

Lemma lookup_int_In labels i label :
  lookup_int labels i = Some label -> In label (map snd labels).
Proof.
  induction labels as [|[n l] labels IH]; simpl; [discriminate|].
  destruct (Z.eqb (Z.of_nat n) i); [intros [= ->]; now left | auto].
Qed.


Ltac bounded_steps :=
  repeat first
    [ apply bounded_ret
    | apply bounded_liftM
    | apply bounded_header_getter
    | apply bounded_bind; [|intros ? ? _]
    | apply bounded_try; [|intros ? _] ].

Section ConsoleLoops.

Variable float_of_str : string -> option float.
Variable format_2f : float -> string.
Variable int_of_str : string -> option Z.
Variable file : option (list csv_line).

Lemma manage_filters_body_progress category labels s :
  progress (manage_filters_body int_of_str category labels) s.
Proof.
  unfold manage_filters_body.
  apply progress_bind_r; [apply bounded_liftM | intros active s1 _].
  apply progress_bind_r; [apply bounded_liftM | intros ? s2 _].
  apply progress_bind_r; [apply bounded_liftM | intros ? s3 _].
  apply progress_bind_l; [apply progress_input | intros selection s4 _].
  unfold manage_filters_select.
  destruct (String.eqb selection ""); [apply bounded_ret|].
  destruct (int_of_str selection) as [i|]; [|bounded_steps].
  destruct (lookup_int labels i); bounded_steps.
Qed.

Lemma manage_filters_bounded fuel category s :
  List.length (stdin s) < fuel ->
  bounded (manage_filters int_of_str fuel category) s.
Proof.
  intros Hfuel. unfold manage_filters.
  assert (Htry : bounded
                   (io_try
                      (io_bind (liftM (get_labels category))
                         (fun l => io_ret (Some (enumerate 1 l))))
                      EmptyDatasetError
                      (io_bind (liftM (print please_load))
                         (fun _ => io_ret None))) s)
    by bounded_steps.
  apply bounded_bind; [exact Htry|].
  intros [labels|] s' E; [|apply bounded_ret].
  pose proof (bounded_len _ _ _ _ Htry E) as Hlen.
  apply while_true_bounded with (N := fuel); try lia.
  intros s0 _. apply manage_filters_body_progress.
Qed.

Lemma menu_choice_bounded fuel choice s :
  List.length (stdin s) < fuel ->
  bounded (menu_choice float_of_str format_2f int_of_str file fuel choice) s.
Proof.
  intros Hfuel. unfold menu_choice, guarded.
  repeat match goal with
         | |- context [if ?b then _ else _] => destruct b
         end;
    try (apply bounded_bind;
         [now apply manage_filters_bounded | intros ? ? _; apply bounded_ret]);
    bounded_steps.
Qed.

Lemma menu_body_progress fuel s :
  List.length (stdin s) < fuel ->
  progress (menu_body float_of_str format_2f int_of_str file fuel) s.
Proof.
  intros Hfuel. unfold menu_body.
  apply progress_bind_r; [apply bounded_liftM | intros ? s1 E1].
  apply liftM_stdin in E1.
  apply progress_bind_r; [apply bounded_header_getter | intros h s2 E2].
  assert (H2 : stdin s2 = stdin s1).
  { unfold header_getter in E2.
    destruct (_header (self (cworld s1))); now injection E2 as _ <-. }
  apply progress_bind_r; [apply bounded_liftM | intros ? s3 E3].
  apply liftM_stdin in E3.
  apply progress_bind_r; [apply bounded_liftM | intros ? s4 E4].
  apply liftM_stdin in E4.
  apply progress_bind_l; [apply progress_input | intros line s5 E5].
  pose proof (bounded_len _ _ _ _
                (progress_bounded _ _ (progress_input menu_prompt s4)) E5)
    as H5.
  destruct (int_of_str line) as [choice|]; [|bounded_steps].
  apply menu_choice_bounded. rewrite E4, E3, H2, E1 in H5. lia.
Qed.

Lemma menu_bounded fuel s :
  List.length (stdin s) < fuel ->
  bounded (menu float_of_str format_2f int_of_str file fuel) s.
Proof.
  intros Hfuel. unfold menu, menu_loop.
  apply while_true_bounded with (N := fuel); try exact Hfuel.
  intros s0 H0. now apply menu_body_progress.
Qed.

(** The header loop of [main] gives back no more lines than it got. *)
Lemma main_ask_header_length lines out :
  List.length (snd (main_ask_header lines out)) <= List.length lines /\
  fst (fst (main_ask_header lines out)) <> OutOfFuel.
Proof.
  revert out. induction lines as [|header rest IH]; intros out; simpl.
  - split; [apply le_n | discriminate].
  - destruct (DataSet_init (PyStr header)) as [ds|[]]; simpl;
      try (split; [lia | discriminate]);
      destruct (IH (out ++ header_prompt ++ "Please enter a string only."
                    ++ nl)%string);
      destruct (IH (out ++ header_prompt ++ header_too_long)%string);
      split; auto; lia.
Qed.

(** X13: on a finite input the loops end: with more fuel than there are
    lines to read, [manage_filters], [menu] and [main] do not run out of
    fuel (they return or raise), and the first two leave no more lines than
    they found. *)
Theorem console_loops_end (fuel : nat) :
  (forall category s,
     List.length (stdin s) < fuel ->
     bounded (manage_filters int_of_str fuel category) s) /\
  (forall s,
     List.length (stdin s) < fuel ->
     bounded (menu float_of_str format_2f int_of_str file fuel) s) /\
  (forall lines,
     List.length lines < fuel ->
     fst (fst (main float_of_str format_2f int_of_str file fuel lines))
     <> OutOfFuel).
Proof.
  split; [|split].
  - intros category s H. now apply manage_filters_bounded.
  - intros s H. now apply menu_bounded.
  - intros lines H. unfold main.
    destruct lines as [|username rest]; [discriminate|].
    match goal with
    | |- context [main_ask_header rest ?o] =>
        destruct (main_ask_header_length rest o) as [Hlen Hout];
        destruct (main_ask_header rest o) as [[[ds|e|] out'] rest']
    end; simpl in *; try discriminate; [|now destruct Hout].
    apply menu_bounded. simpl. lia.
Qed.

End ConsoleLoops.

Lemma console_loops_end_witness :
  List.length ["Ann"; "Air"; "4"; "9"] < 5 /\
  fst (fst (main Builtins.float_of_decimal Builtins.fmt_2f int_of_decimal
              (Some Sample.file) 5 ["Ann"; "Air"; "4"; "9"]))
  <> OutOfFuel.
Proof.
  assert (H : List.length ["Ann"; "Air"; "4"; "9"] < 5) by (simpl; lia).
  split; [exact H|].
  exact (proj2 (proj2 (console_loops_end Builtins.float_of_decimal
                         Builtins.fmt_2f int_of_decimal (Some Sample.file) 5))
           _ H).
Defined.

(* ===================================================================== *)
(** * The session keeps the object sound *)
(* ===================================================================== *)

Lemma display_cross_table_cases format_2f stat w o w' :
  display_cross_table format_2f stat w = (o, w') ->
  self w' = self w /\ (o = Ret PyNone \/ o = Exc EmptyDatasetError).
Proof.
  destruct (state_cases (self w)) as [Hf|[data HL]].
  - destruct (falsy_every_query_fails format_2f w Hf)
      as (_ & _ & _ & _ & _ & H & _).
    rewrite H. intros [= <- <-]. auto.
  - destruct w as [ds out].
    rewrite (display_cross_table_loaded format_2f ds data) by exact HL.
    intros [= <- <-]. auto.
Qed.

Lemma display_field_table_cases format_2f rows w o w' :
  display_field_table format_2f rows w = (o, w') ->
  self w' = self w /\ (o = Ret PyNone \/ o = Exc EmptyDatasetError).
Proof.
  destruct (state_cases (self w)) as [Hf|[data HL]].
  - destruct (falsy_every_query_fails format_2f w Hf)
      as (_ & _ & _ & _ & _ & _ & H).
    rewrite H. intros [= <- <-]. auto.
  - destruct w as [ds out].
    rewrite (display_field_table_loaded format_2f ds data) by exact HL.
    intros [= <- <-]. auto.
Qed.

Lemma for_each_prints_self {A} (xs : list A) (text : A -> string) w :
  exists out, for_each xs (fun x => print (text x)) w
              = (Ret tt, mkWorld (self w) out).
Proof.
  destruct w as [ds out]. eexists.
  apply (for_each_prints xs _ text ds). reflexivity.
Qed.

Section ConsoleSafety.

Variable float_of_str : string -> option float.
Variable format_2f : float -> string.
Variable int_of_str : string -> option Z.
Variable file : option (list csv_line).
Variable h : string.

Lemma load_file_session_inv w o w' :
  session_inv h (self w) ->
  load_file float_of_str file w = (o, w') ->
  session_inv h (self w').
Proof.
  intros [HC Hh] H.
  destruct (load_file_cases _ _ _ _ _ H)
    as [(data & _ & _ & ->)|[(_ & ->)|(e & _ & ->)]].
  - split; [apply after_load_Consistent | exact Hh].
  - split; [|exact Hh]. destruct HC as [Hwf _]. split; [exact Hwf|].
    intros data [Hd Hne]. simpl in Hd. injection Hd as <-. now destruct Hne.
  - now split.
Qed.

Lemma guarded_triple (call : M pyobj) (P : DataSet -> Prop) R :
  (forall w o w', call w = (o, w') ->
     self w' = self w /\ (o = Ret PyNone \/ o = Exc EmptyDatasetError)) ->
  triple P (guarded call) (fun _ => P) R.
Proof.
  intros Hcall s HP. unfold guarded, io_try, io_bind, liftM.
  destruct (call (cworld s)) as [o w'] eqn:E.
  destruct (Hcall _ _ _ E) as [Hs [->| ->]]; simpl; now rewrite Hs.
Qed.

Lemma manage_filters_body_triple category labels :
  triple (filtering h category labels)
    (manage_filters_body int_of_str category labels)
    (fun c ds => match c with
                 | Continue => filtering h category labels ds
                 | Break => session_inv h ds
                 end)
    (fun e ds => e = EOFError /\ session_inv h ds).
Proof.
  unfold manage_filters_body.
  apply triple_bind with (Q' := fun _ => filtering h category labels).
  { apply triple_liftM. intros w HK.
    destruct HK as (HJ & [data HL] & Hin).
    rewrite (get_active_labels_loaded _ data) by exact HL.
    exact (conj HJ (conj (ex_intro _ data HL) Hin)). }
  intros active.
  apply triple_bind with (Q' := fun _ => filtering h category labels);
    [apply triple_print|]. intros _.
  apply triple_bind with (Q' := fun _ => filtering h category labels).
  { apply triple_liftM. intros w HK.
    destruct (for_each_prints_self labels (filter_line active) w) as [out ->].
    exact HK. }
  intros _.
  apply triple_bind with (Q' := fun _ => filtering h category labels).
  { apply triple_input. intros ds HK. split; [reflexivity | apply HK]. }
  intros selection. unfold manage_filters_select.
  destruct (String.eqb selection "").
  { intros s HK. apply HK. }
  destruct (int_of_str selection) as [i|].
  2:{ apply triple_bind with (Q' := fun _ => filtering h category labels);
        [apply triple_print | intros _ s HK; exact HK]. }
  destruct (lookup_int labels i) as [label|] eqn:El.
  2:{ apply triple_bind with (Q' := fun _ => filtering h category labels);
        [apply triple_print | intros _ s HK; exact HK]. }
  apply triple_bind with (Q' := fun _ => filtering h category labels);
    [|intros _ s HK; exact HK].
  apply triple_liftM. intros w (HJ & [data HL] & Hin).
  rewrite (toggle_active_label_loaded _ data) by exact HL.
  assert (Hkey : In label (Dict.keys (labels_of (self w) category)))
    by (apply Hin; now apply (lookup_int_In labels i)).
  destruct (In_keys_get _ _ Hkey) as [v Hv]. rewrite Hv. simpl.
  split; [|split].
  - destruct HJ as [HC Hh]. split.
    + now apply Consistent_set_present with (v0 := v).
    + now destruct category.
  - exists data. now apply Loaded_set_labels.
  - intros l Hl. rewrite labels_of_set_labels.
    rewrite (DictFacts.keys_set_present _ _ _ _ Hv). now apply Hin.
Qed.

Lemma manage_filters_triple fuel category :
  triple (session_inv h) (manage_filters int_of_str fuel category)
    (fun _ => session_inv h)
    (fun e ds => e = EOFError /\ session_inv h ds).
Proof.
  unfold manage_filters.
  apply triple_bind
    with (Q' := fun r ds => match r with
                            | None => session_inv h ds
                            | Some labels => filtering h category labels ds
                            end).
  - apply triple_try
      with (R' := fun e ds => e = Raised EmptyDatasetError /\ session_inv h ds).
    + apply triple_bind
        with (Q' := fun l ds => filtering h category (enumerate 1 l) ds).
      * apply triple_liftM. intros w HJ.
        destruct (state_cases (self w)) as [Hf|[data HL]].
        -- unfold get_labels, bind. rewrite (check_not_empty_falsy w Hf).
           now split.
        -- rewrite (get_labels_loaded _ data) by exact HL.
           split; [exact HJ|]. split; [eauto|].
           intros label. now rewrite map_snd_enumerate.
      * intros l s HK. exact HK.
    + intros e' ds Hne [-> _]. now destruct Hne.
    + apply triple_bind with (Q' := fun _ => session_inv h).
      * apply triple_liftM. intros w [_ HJ]. exact HJ.
      * intros _ s HJ. exact HJ.
  - intros [labels|]; [|intros s HJ; exact HJ].
    apply triple_while. apply manage_filters_body_triple.
Qed.

Lemma menu_choice_triple fuel choice :
  triple (session_inv h)
    (menu_choice float_of_str format_2f int_of_str file fuel choice)
    (fun _ => session_inv h)
    (fun e ds => menu_escape float_of_str file e /\ session_inv h ds).
Proof.
  unfold menu_choice.
  repeat match goal with
         | |- context [if ?b then _ else _] => destruct b
         end;
    try (apply triple_bind with (Q' := fun _ => session_inv h);
         [apply triple_print | intros _ s HJ; exact HJ]);
    try (apply triple_bind with (Q' := fun _ => session_inv h);
         [apply guarded_triple;
          first [apply display_cross_table_cases
                | apply display_field_table_cases]
         | intros _ s HJ; exact HJ]);
    try (apply triple_bind with (Q' := fun _ => session_inv h);
         [eapply triple_conseq;
          [apply manage_filters_triple | auto | auto
          | intros e ds [-> HJ]; split; [now left | exact HJ]]
         | intros _ s HJ; exact HJ]).
  apply triple_bind with (Q' := fun _ => session_inv h);
    [|intros _ s HJ; exact HJ].
  apply triple_liftM. intros w HJ.
  destruct (load_file float_of_str file w) as [o w'] eqn:E.
  pose proof (load_file_session_inv _ _ _ HJ E) as HJ'.
  destruct o as [a|e]; [exact HJ'|].
  split; [|exact HJ']. right. exists e. split; [reflexivity|].
  now exists w, w'.
Qed.

Lemma menu_body_triple fuel :
  triple (session_inv h)
    (menu_body float_of_str format_2f int_of_str file fuel)
    (fun _ => session_inv h)
    (fun e ds => menu_escape float_of_str file e /\ session_inv h ds).
Proof.
  unfold menu_body.
  apply triple_bind with (Q' := fun _ => session_inv h);
    [apply triple_print | intros _].
  apply triple_bind with (Q' := fun _ => session_inv h).
  { intros s HJ. unfold header_getter.
    destruct HJ as [HC Hh]. rewrite Hh. now split. }
  intros h0.
  apply triple_bind with (Q' := fun _ => session_inv h);
    [apply triple_print | intros _].
  apply triple_bind with (Q' := fun _ => session_inv h).
  { apply triple_liftM. intros w HJ. rewrite print_menu_eq. exact HJ. }
  intros _.
  apply triple_bind with (Q' := fun _ => session_inv h).
  { apply triple_input. intros ds HJ. split; [now left | exact HJ]. }
  intros line.
  destruct (int_of_str line) as [choice|].
  - apply menu_choice_triple.
  - apply triple_bind with (Q' := fun _ => session_inv h);
      [apply triple_print | intros _ s HJ; exact HJ].
Qed.

(** X14: a session of [menu] on an object with a header and consistent
    registries, with more fuel than lines of input, ends in one of three
    ways: it returns (the user chose 9), it raises [EOFError] (the input
    ended), or it raises an exception that [load_file] raises on the file;
    the exceptions of the queries and of [toggle_active_label] never escape.
    In every case the object still has its header and consistent
    registries. *)
Theorem menu_session_safe (fuel : nat) (s : console) :
  List.length (stdin s) < fuel ->
  session_inv h (self (cworld s)) ->
  session_inv h
    (self (cworld (snd (menu float_of_str format_2f int_of_str file fuel s))))
  /\
  (fst (menu float_of_str format_2f int_of_str file fuel s) = IoRet tt \/
   exists e,
     fst (menu float_of_str format_2f int_of_str file fuel s) = IoExc e /\
     menu_escape float_of_str file e).
Proof.
  intros Hfuel HJ.
  destruct (menu_bounded float_of_str format_2f int_of_str file fuel s Hfuel)
    as [Hout _].
  assert (Hb : triple (session_inv h)
                 (menu_body float_of_str format_2f int_of_str file fuel)
                 (fun c ds => match c with
                              | Continue => session_inv h ds
                              | Break => session_inv h ds
                              end)
                 (fun e ds => menu_escape float_of_str file e /\
                              session_inv h ds)).
  { eapply triple_conseq;
      [apply menu_body_triple | auto | intros [] ds H; exact H | auto]. }
  pose proof (triple_while _ _ _ _ Hb fuel s HJ) as H.
  change (while_true fuel
            (menu_body float_of_str format_2f int_of_str file fuel))
    with (menu float_of_str format_2f int_of_str file fuel) in H.
  destruct (menu float_of_str format_2f int_of_str file fuel s)
    as [[[]|e|] s']; simpl in *.
  - split; [exact H | now left].
  - destruct H as [He HJ']. split; [exact HJ' | right; eauto].
  - now destruct Hout.
Qed.

End ConsoleSafety.

Lemma menu_session_safe_witness :
  List.length (stdin (mkConsole (mkWorld Sample.loaded "") ["4"; "9"])) < 3 /\
  session_inv "" Sample.loaded /\
  (session_inv ""
     (self (cworld (snd (menu Builtins.float_of_decimal Builtins.fmt_2f
                           int_of_decimal (Some Sample.file) 3
                           (mkConsole (mkWorld Sample.loaded "")
                                      ["4"; "9"])))))
   /\
   (fst (menu Builtins.float_of_decimal Builtins.fmt_2f int_of_decimal
           (Some Sample.file) 3
           (mkConsole (mkWorld Sample.loaded "") ["4"; "9"])) = IoRet tt \/
    exists e,
      fst (menu Builtins.float_of_decimal Builtins.fmt_2f int_of_decimal
             (Some Sample.file) 3
             (mkConsole (mkWorld Sample.loaded "") ["4"; "9"])) = IoExc e /\
      menu_escape Builtins.float_of_decimal (Some Sample.file) e)).
Proof.
  assert (Hlen : List.length
                   (stdin (mkConsole (mkWorld Sample.loaded "") ["4"; "9"]))
                 < 3) by (simpl; lia).
  assert (HJ : session_inv "" Sample.loaded)
    by (split; [exact Sample_loaded_Consistent | reflexivity]).
  split; [exact Hlen|]. split; [exact HJ|].
  exact (menu_session_safe Builtins.float_of_decimal Builtins.fmt_2f
           int_of_decimal (Some Sample.file) "" 3
           (mkConsole (mkWorld Sample.loaded "") ["4"; "9"]) Hlen HJ).
Defined.

(* ===================================================================== *)
(** * The console turn by turn *)
(* ===================================================================== *)

Section ConsoleTurns.

Variable float_of_str : string -> option float.
Variable format_2f : float -> string.
Variable int_of_str : string -> option Z.
Variable file : option (list csv_line).



Lemma manage_filters_falsy fuel category ds out lines :
  falsy (_data ds) = true ->
  manage_filters int_of_str fuel category (mkConsole (mkWorld ds out) lines)
  = (IoRet tt, mkConsole (mkWorld ds (out ++ please_load)%string) lines).
Proof.
  intros Hf. unfold manage_filters, io_try, io_bind, liftM.
  cbn [cworld stdin]. unfold get_labels, bind.
  now rewrite (check_not_empty_falsy (mkWorld ds out) Hf).
Qed.

(** X15: on an object with no data [manage_filters] prints
    "Please load a dataset first.", reads no line and returns, the object
    being as it was, whatever the fuel and the lines waiting. *)
Theorem manage_filters_unloaded
    (fuel : nat) (category : Categories)
    (ds : DataSet) (out : string) (lines : list string) :
  falsy (_data ds) = true ->
  manage_filters int_of_str fuel category (mkConsole (mkWorld ds out) lines)
  = (IoRet tt, mkConsole (mkWorld ds (out ++ please_load)%string) lines).
Proof. apply manage_filters_falsy. Qed.


Lemma menu_body_eq fuel ds h out line rest :
  _header ds = Some h ->
  menu_body float_of_str format_2f int_of_str file fuel
    (mkConsole (mkWorld ds out) (line :: rest))
  = match int_of_str line with
    | None =>
        io_bind (liftM (print ("Please enter a number." ++ nl)))
          (fun _ => io_ret Continue)
    | Some user_choice =>
        menu_choice float_of_str format_2f int_of_str file fuel user_choice
    end
      (mkConsole (mkWorld ds (out ++ menu_banner h ++ menu_prompt)%string)
         rest).
Proof.
  intros Hh. unfold menu_body.
  unfold liftM at 1. unfold print at 1. unfold io_bind at 1.
  cbn [cworld stdin self stdout].
  unfold header_getter at 1. unfold io_bind at 1.
  cbn [cworld stdin self stdout]. rewrite Hh.
  unfold liftM at 1. unfold print at 1. unfold io_bind at 1.
  cbn [cworld stdin self stdout].
  unfold liftM at 1. unfold io_bind at 1. cbn [cworld stdin].
  rewrite print_menu_eq. cbn [cworld stdin self stdout].
  unfold input at 1. unfold io_bind at 1. cbn [cworld stdin self stdout].
  unfold menu_banner. now rewrite !append_assoc.
Qed.

End ConsoleTurns.

Section ConsoleMenu.

Variable float_of_str : string -> option float.
Variable format_2f : float -> string.
Variable int_of_str : string -> option Z.
Variable file : option (list csv_line).

Lemma menu_loop_step turns fuel ds h out line rest :
  _header ds = Some h ->
  menu_loop float_of_str format_2f int_of_str file (S turns) fuel
    (mkConsole (mkWorld ds out) (line :: rest))
  = match
      match int_of_str line with
      | None =>
          io_bind (liftM (print ("Please enter a number." ++ nl)))
            (fun _ => io_ret Continue)
      | Some user_choice =>
          menu_choice float_of_str format_2f int_of_str file fuel user_choice
      end (after_turn ds h out "" rest)
    with
    | (IoRet Continue, s') =>
        menu_loop float_of_str format_2f int_of_str file turns fuel s'
    | (IoRet Break, s') => (IoRet tt, s')
    | (IoExc e, s') => (IoExc e, s')
    | (OutOfFuel, s') => (OutOfFuel, s')
    end.
Proof.
  intros Hh. unfold menu_loop at 1. cbn [while_true].
  rewrite (menu_body_eq float_of_str format_2f int_of_str file fuel ds h)
    by exact Hh.
  unfold after_turn. now rewrite append_nil_r.
Qed.

Lemma guarded_unloaded (call : M pyobj) ds out lines :
  call (mkWorld ds out) = (Exc EmptyDatasetError, mkWorld ds out) ->
  guarded call (mkConsole (mkWorld ds out) lines)
  = (IoRet tt, mkConsole (mkWorld ds (out ++ please_load)%string) lines).
Proof.
  intros H. unfold guarded, io_try, io_bind, liftM. cbn [cworld stdin].
  now rewrite H.
Qed.

(** X17: a turn of the menu prints a blank line, the header, the nine
    choices and the prompt, reads one line and then: a line that is not a
    number gives "Please enter a number." and a number outside 1..9 gives
    "Sorry, your choice is not on the menu.", the loop going on with the
    object untouched; 9 prints the goodbye line and makes [menu] return,
    leaving the lines not yet read. *)
Theorem menu_turn
    (turns fuel : nat) (ds : DataSet) (h out line : string)
    (rest : list string) :
  _header ds = Some h ->
  (int_of_str line = None ->
   menu_loop float_of_str format_2f int_of_str file (S turns) fuel
     (mkConsole (mkWorld ds out) (line :: rest))
   = menu_loop float_of_str format_2f int_of_str file turns fuel
       (after_turn ds h out ("Please enter a number." ++ nl) rest)) /\
  (forall c, int_of_str line = Some c -> (c < 1 \/ 9 < c)%Z ->
   menu_loop float_of_str format_2f int_of_str file (S turns) fuel
     (mkConsole (mkWorld ds out) (line :: rest))
   = menu_loop float_of_str format_2f int_of_str file turns fuel
       (after_turn ds h out ("Sorry, your choice is not on the menu." ++ nl)
          rest)) /\
  (int_of_str line = Some 9%Z ->
   menu_loop float_of_str format_2f int_of_str file (S turns) fuel
     (mkConsole (mkWorld ds out) (line :: rest))
   = (IoRet tt,
      after_turn ds h out
        ("Goodbye! Thank you for looking at the menu." ++ nl) rest)).
Proof.
  intros Hh. split; [|split].
  - intros Hint. rewrite (menu_loop_step turns fuel ds h) by exact Hh.
    rewrite Hint. unfold after_turn, io_bind, liftM, print, io_ret.
    cbn [cworld stdin self stdout]. now rewrite !append_assoc.
  - intros c Hint Hc. rewrite (menu_loop_step turns fuel ds h) by exact Hh.
    rewrite Hint. unfold menu_choice.
    repeat match goal with
           | |- context [Z.eqb c ?n] =>
               destruct (Z.eqb_spec c n); [lia|]
           end.
    unfold after_turn, io_bind, liftM, print, io_ret.
    cbn [cworld stdin self stdout]. now rewrite !append_assoc.
  - intros Hint. rewrite (menu_loop_step turns fuel ds h) by exact Hh.
    rewrite Hint. unfold menu_choice. cbn [Z.eqb Pos.eqb].
    unfold after_turn, io_bind, liftM, print, io_ret.
    cbn [cworld stdin self stdout]. now rewrite !append_assoc.
Qed.

(** X18: while the object has no data, each of the choices 1 to 7 prints
    "Please load a dataset first." and the loop goes on, the object
    untouched and no further line read. *)
Theorem menu_unloaded
    (turns fuel : nat) (ds : DataSet) (h out line : string)
    (rest : list string) (c : Z) :
  _header ds = Some h ->
  falsy (_data ds) = true ->
  int_of_str line = Some c ->
  (1 <= c <= 7)%Z ->
  menu_loop float_of_str format_2f int_of_str file (S turns) fuel
    (mkConsole (mkWorld ds out) (line :: rest))
  = menu_loop float_of_str format_2f int_of_str file turns fuel
      (after_turn ds h out please_load rest).
Proof.
  intros Hh Hf Hint Hc.
  rewrite (menu_loop_step turns fuel ds h) by exact Hh. rewrite Hint.
  pose proof (fun o => falsy_every_query_fails format_2f (mkWorld ds o) Hf)
    as Hq.
  assert (Hcross : forall stat txt lines,
            io_bind (guarded (display_cross_table format_2f stat))
              (fun _ => io_ret Continue)
              (mkConsole (mkWorld ds txt) lines)
            = (IoRet Continue,
               mkConsole (mkWorld ds (txt ++ please_load)%string) lines)).
  { intros stat txt lines. unfold io_bind.
    rewrite guarded_unloaded; [reflexivity|].
    destruct (Hq txt) as (_ & _ & _ & _ & _ & H & _). apply H. }
  assert (Hfield : forall rows txt lines,
            io_bind (guarded (display_field_table format_2f rows))
              (fun _ => io_ret Continue)
              (mkConsole (mkWorld ds txt) lines)
            = (IoRet Continue,
               mkConsole (mkWorld ds (txt ++ please_load)%string) lines)).
  { intros rows txt lines. unfold io_bind.
    rewrite guarded_unloaded; [reflexivity|].
    destruct (Hq txt) as (_ & _ & _ & _ & _ & _ & H). apply H. }
  assert (Hfilt : forall category txt lines,
            io_bind (manage_filters int_of_str fuel category)
              (fun _ => io_ret Continue)
              (mkConsole (mkWorld ds txt) lines)
            = (IoRet Continue,
               mkConsole (mkWorld ds (txt ++ please_load)%string) lines)).
  { intros category txt lines. unfold io_bind.
    now rewrite manage_filters_falsy by exact Hf. }
  unfold menu_choice, after_turn.
  assert (Hcases : (c = 1 \/ c = 2 \/ c = 3 \/ c = 4 \/ c = 5 \/ c = 6
                    \/ c = 7)%Z) by lia.
  destruct Hcases as [->|[->|[->|[->|[->|[->| ->]]]]]];
    cbn [Z.eqb Pos.eqb];
    rewrite ?Hcross, ?Hfield, ?Hfilt, ?append_assoc; reflexivity.
Qed.

(** X19: choice 8 calls [load_file] with no handler: when the load returns
    the loop goes on with the loaded object, and when it raises, that
    exception ends [menu], with the object as the load left it. *)
Theorem menu_load
    (turns fuel : nat) (ds : DataSet) (h out line : string)
    (rest : list string) :
  _header ds = Some h ->
  int_of_str line = Some 8%Z ->
  (forall r w',
     load_file float_of_str file (cworld (after_turn ds h out "" rest))
     = (Ret r, w') ->
     menu_loop float_of_str format_2f int_of_str file (S turns) fuel
       (mkConsole (mkWorld ds out) (line :: rest))
     = menu_loop float_of_str format_2f int_of_str file turns fuel
         (mkConsole w' rest)) /\
  (forall e w',
     load_file float_of_str file (cworld (after_turn ds h out "" rest))
     = (Exc e, w') ->
     menu_loop float_of_str format_2f int_of_str file (S turns) fuel
       (mkConsole (mkWorld ds out) (line :: rest))
     = (IoExc (Raised e), mkConsole w' rest)).
Proof.
  intros Hh Hint. split.
  - intros r w' Hload.
    rewrite (menu_loop_step turns fuel ds h) by exact Hh. rewrite Hint.
    unfold menu_choice. cbn [Z.eqb Pos.eqb].
    unfold io_bind, liftM. now rewrite Hload.
  - intros e w' Hload.
    rewrite (menu_loop_step turns fuel ds h) by exact Hh. rewrite Hint.
    unfold menu_choice. cbn [Z.eqb Pos.eqb].
    unfold io_bind, liftM. now rewrite Hload.
Qed.

Lemma DataSet_init_too_long (s : string) :
  30 < py_len s -> DataSet_init (PyStr s) = Exc ValueError.
Proof.
  intros Hs. unfold DataSet_init, header_setter.
  destruct (Nat.ltb_spec 30 (py_len s)); [reflexivity | lia].
Qed.

Lemma main_ask_header_skips (long : list string) (good : string)
    (rest : list string) (out : string) :
  Forall (fun header => 30 < py_len header) long ->
  py_len good <= 30 ->
  main_ask_header (long ++ good :: rest) out
  = (IoRet (mkDataSet Dict.empty Dict.empty None (Some good)),
     (out ++ join (map (fun _ => header_prompt ++ header_too_long) long)
      ++ header_prompt)%string,
     rest).
Proof.
  intros Hlong Hgood. revert out.
  induction Hlong as [|header long Hh _ IH]; intros out; simpl.
  - now rewrite (DataSet_init_accepts good Hgood).
  - rewrite (DataSet_init_too_long header Hh), IH.
    now rewrite !append_assoc.
Qed.

(** X20: [main] greets the user by the name typed, then asks for a header
    again and again, answering "Please enter a string of 30 characters or
    less." to each header of more than 30 characters, and runs the menu on a
    new, empty object that carries the first header of at most 30
    characters. *)
Theorem main_asks_until_header_fits
    (fuel : nat) (username : string) (long : list string) (good : string)
    (rest : list string) :
  Forall (fun header => 30 < py_len header) long ->
  py_len good <= 30 ->
  main float_of_str format_2f int_of_str file fuel
    (username :: long ++ good :: rest)
  = let r :=
      menu float_of_str format_2f int_of_str file fuel
        (mkConsole
           (mkWorld (mkDataSet Dict.empty Dict.empty None (Some good))
              (greeting username
               ++ join (map (fun _ => header_prompt ++ header_too_long) long)
               ++ header_prompt)%string)
           rest) in
    (fst r, stdout (cworld (snd r)), stdin (snd r)).
Proof.
  intros Hlong Hgood. unfold main.
  now rewrite (main_ask_header_skips long good rest _ Hlong Hgood).
Qed.

End ConsoleMenu.

Lemma manage_filters_unloaded_witness :
  falsy (_data Sample.fresh) = true /\
  manage_filters int_of_decimal 1 TIME_OF_DAY
    (mkConsole (mkWorld Sample.fresh "") ["1"])
  = (IoRet tt, mkConsole (mkWorld Sample.fresh ("" ++ please_load)) ["1"]).
Proof.
  split; [reflexivity|].
  exact (manage_filters_unloaded int_of_decimal 1 TIME_OF_DAY Sample.fresh ""
           ["1"] eq_refl).
Defined.


Lemma menu_turn_witness :
  _header Sample.fresh = Some "" /\
  int_of_decimal "9" = Some 9%Z /\
  menu_loop Builtins.float_of_decimal Builtins.fmt_2f int_of_decimal
    (Some Sample.file) 1 1 (mkConsole (mkWorld Sample.fresh "") ["9"; "x"])
  = (IoRet tt,
     after_turn Sample.fresh "" ""
       ("Goodbye! Thank you for looking at the menu." ++ nl) ["x"]).
Proof.
  split; [reflexivity|]. split; [reflexivity|].
  exact (proj2 (proj2 (menu_turn Builtins.float_of_decimal Builtins.fmt_2f
                         int_of_decimal (Some Sample.file) 0 1 Sample.fresh
                         "" "" "9" ["x"] eq_refl))
           eq_refl).
Defined.

Lemma menu_unloaded_witness :
  _header Sample.fresh = Some "" /\
  falsy (_data Sample.fresh) = true /\
  int_of_decimal "4" = Some 4%Z /\
  (1 <= 4 <= 7)%Z /\
  menu_loop Builtins.float_of_decimal Builtins.fmt_2f int_of_decimal
    (Some Sample.file) 2 2 (mkConsole (mkWorld Sample.fresh "") ["4"; "9"])
  = menu_loop Builtins.float_of_decimal Builtins.fmt_2f int_of_decimal
      (Some Sample.file) 1 2
      (after_turn Sample.fresh "" "" please_load ["9"]).
Proof.
  assert (Hc : (1 <= 4 <= 7)%Z) by lia.
  split; [reflexivity|]. split; [reflexivity|]. split; [reflexivity|].
  split; [exact Hc|].
  exact (menu_unloaded Builtins.float_of_decimal Builtins.fmt_2f
           int_of_decimal (Some Sample.file) 1 2 Sample.fresh "" "" "4"
           ["9"] 4%Z eq_refl eq_refl eq_refl Hc).
Defined.

Lemma menu_load_witness :
  _header Sample.loaded = Some "" /\
  int_of_decimal "8" = Some 8%Z /\
  load_file Builtins.float_of_decimal (Some [Line ["h"]])
    (cworld (after_turn Sample.loaded "" "" "" ["4"]))
  = (Exc EmptyDatasetError,
     mkWorld (set_data Sample.loaded (Some []))
       (stdout (cworld (after_turn Sample.loaded "" "" "" ["4"])))) /\
  menu_loop Builtins.float_of_decimal Builtins.fmt_2f int_of_decimal
    (Some [Line ["h"]]) 2 2
    (mkConsole (mkWorld Sample.loaded "") ["8"; "4"])
  = (IoExc (Raised EmptyDatasetError),
     mkConsole
       (mkWorld (set_data Sample.loaded (Some []))
          (stdout (cworld (after_turn Sample.loaded "" "" "" ["4"]))))
       ["4"]).
Proof.
  split; [reflexivity|]. split; [reflexivity|]. split; [reflexivity|].
  exact (proj2 (menu_load Builtins.float_of_decimal Builtins.fmt_2f
                  int_of_decimal (Some [Line ["h"]]) 1 2 Sample.loaded
                  "" "" "8" ["4"] eq_refl eq_refl)
           EmptyDatasetError _ eq_refl).
Defined.

Lemma main_asks_until_header_fits_witness :
  Forall (fun header => 30 < py_len header)
    ["Air Quality Report for New York"] /\
  py_len "Air" <= 30 /\
  main Builtins.float_of_decimal Builtins.fmt_2f int_of_decimal
    (Some Sample.file) 2
    ("Ann" :: ["Air Quality Report for New York"] ++ "Air" :: ["9"])
  = let r :=
      menu Builtins.float_of_decimal Builtins.fmt_2f int_of_decimal
        (Some Sample.file) 2
        (mkConsole
           (mkWorld (mkDataSet Dict.empty Dict.empty None (Some "Air"))
              (greeting "Ann"
               ++ join (map (fun _ => header_prompt ++ header_too_long)
                          ["Air Quality Report for New York"])
               ++ header_prompt)%string)
           ["9"]) in
    (fst r, stdout (cworld (snd r)), stdin (snd r)).
Proof.
  assert (Hlong : Forall (fun header => 30 < py_len header)
                    ["Air Quality Report for New York"])
    by (constructor; [vm_compute; lia | constructor]).
  assert (Hgood : py_len "Air" <= 30) by (vm_compute; lia).
  split; [exact Hlong|]. split; [exact Hgood|].
  exact (main_asks_until_header_fits Builtins.float_of_decimal Builtins.fmt_2f
           int_of_decimal (Some Sample.file) 2 "Ann"
           ["Air Quality Report for New York"] "Air" ["9"] Hlong Hgood).
Defined.

(** A whole session: name, a header that is too long, a header, a table on
    the empty object, a load, a filter switched off, a table, goodbye. *)
Example main_session :
  let r := main Builtins.float_of_decimal Builtins.fmt_2f int_of_decimal
             (Some Sample.file) 12
             ["Ann"; "Air Quality Report for New York"; "Air";
              "4"; "8"; "6"; "2"; ""; "9"; "unread"] in
  fst (fst r) = IoRet tt /\ snd r = ["unread"].
Proof. vm_compute. split; reflexivity. Qed.
